(** * WHOIS lookup backend: record normalisation and request orchestration

    A shallow embedding of [backend/app.py].  The first module models the
    part of the Python runtime the program relies on (JSON values, truthiness,
    [str] methods, exceptions); the definitions after it follow the source
    function by function and keep its names. *)

From Stdlib Require Import ZArith List String Ascii Bool Arith Lia DecimalString.
Set Warnings "-register-all".
Import ListNotations.
Open Scope string_scope.

(* ================================================================= *)
(** ** The Python runtime, as far as the program uses it *)

Module Py.

(** A [float] is observed by the program only through its truth value and
    its [str()]; both are carried by the model. *)
Record pyfloat := { float_nonzero : bool; float_repr : string }.

(** What [resp.json()] and [request.get_json()] can return.  A [dict] keeps
    its items in insertion order; lookup takes the first item with the key. *)
Inductive value :=
| VNone
| VBool (b : bool)
| VInt (z : Z)
| VFloat (f : pyfloat)
| VStr (s : string)
| VList (l : list value)
| VDict (d : list (string * value)).

Inductive exn :=
| AttributeError (msg : string)
| Timeout
| OtherError (msg : string).

Inductive result (A : Type) :=
| Ok (a : A)
| Raise (e : exn).
Arguments Ok {A} a.
Arguments Raise {A} e.

Definition bind {A B} (c : result A) (k : A -> result B) : result B :=
  match c with
  | Ok a => k a
  | Raise e => Raise e
  end.

(** [bool(v)] *)
Definition truthy (v : value) : bool :=
  match v with
  | VNone => false
  | VBool b => b
  | VInt z => negb (Z.eqb z 0)
  | VFloat f => float_nonzero f
  | VStr s => negb (String.eqb s "")
  | VList l => match l with [] => false | _ => true end
  | VDict d => match d with [] => false | _ => true end
  end.

Definition is_str (v : value) : bool :=
  match v with VStr _ => true | _ => false end.
Definition is_list (v : value) : bool :=
  match v with VList _ => true | _ => false end.
Definition is_dict (v : value) : bool :=
  match v with VDict _ => true | _ => false end.

Definition type_name (v : value) : string :=
  match v with
  | VNone => "NoneType"
  | VBool _ => "bool"
  | VInt _ => "int"
  | VFloat _ => "float"
  | VStr _ => "str"
  | VList _ => "list"
  | VDict _ => "dict"
  end.

Definition no_attribute (v : value) (attr : string) : exn :=
  AttributeError ("'" ++ type_name v ++ "' object has no attribute '" ++ attr ++ "'").

Fixpoint lookup {A} (d : list (string * A)) (k : string) : option A :=
  match d with
  | [] => None
  | (k', v) :: d' => if String.eqb k' k then Some v else lookup d' k
  end.

(** [d.get(k)] on a dict *)
Definition dict_get (d : list (string * value)) (k : string) : value :=
  match lookup d k with
  | Some v => v
  | None => VNone
  end.

(** [v.get(k)] on any object: only a dict has the method *)
Definition get (v : value) (k : string) : result value :=
  match v with
  | VDict d => Ok (dict_get d k)
  | _ => Raise (no_attribute v "get")
  end.

(** *** Strings *)

Definition in_range (lo hi n : nat) : bool := (lo <=? n)%nat && (n <=? hi)%nat.

(** [str.isspace] of one character, code points below 256 *)
Definition isspace (c : ascii) : bool :=
  let n := nat_of_ascii c in
  in_range 9 13 n || in_range 28 32 n || (n =? 133)%nat || (n =? 160)%nat.

Definition is_empty (s : string) : bool :=
  match s with EmptyString => true | _ => false end.

(** [s.split()]: the maximal runs of non-whitespace characters, [cur] being
    the run read so far *)
Fixpoint split_from (cur s : string) : list string :=
  match s with
  | EmptyString => if is_empty cur then [] else [cur]
  | String c s' =>
      if isspace c
      then (if is_empty cur then split_from "" s' else cur :: split_from "" s')
      else split_from (cur ++ String c "") s'
  end.

Definition split (s : string) : list string := split_from "" s.

Fixpoint lstrip (s : string) : string :=
  match s with
  | EmptyString => ""
  | String c s' => if isspace c then lstrip s' else s
  end.

Fixpoint rstrip (s : string) : string :=
  match s with
  | EmptyString => ""
  | String c s' =>
      let r := rstrip s' in
      if isspace c && is_empty r then "" else String c r
  end.

(** [s.strip()] *)
Definition strip (s : string) : string := rstrip (lstrip s).

(** [s.replace(old, new)] for one-character [old] and [new] *)
Fixpoint replace (old new : ascii) (s : string) : string :=
  match s with
  | EmptyString => ""
  | String c s' => String (if Ascii.eqb c old then new else c) (replace old new s')
  end.

Definition lower_char (c : ascii) : ascii :=
  let n := nat_of_ascii c in
  if in_range 65 90 n || in_range 192 214 n || in_range 216 222 n
  then ascii_of_nat (n + 32)
  else c.

(** [s.lower()], code points below 256 *)
Fixpoint lower (s : string) : string :=
  match s with
  | EmptyString => ""
  | String c s' => String (lower_char c) (lower s')
  end.

(** [sep.join(l)] *)
Fixpoint join (sep : string) (l : list string) : string :=
  match l with
  | [] => ""
  | [x] => x
  | x :: l' => x ++ sep ++ join sep l'
  end.

Fixpoint take (n : nat) (s : string) : string :=
  match n, s with
  | S n', String c s' => String c (take n' s')
  | _, _ => ""
  end.

Definition len (s : string) : Z := Z.of_nat (String.length s).

(** [s[:stop]]: a negative [stop] counts from the end, and both ends are
    clamped to the string *)
Definition slice_to (s : string) (stop : Z) : string :=
  let stop' := if (stop <? 0)%Z then Z.max 0 (len s + stop) else Z.min stop (len s) in
  take (Z.to_nat stop') s.

(** *** [repr] and [str] *)

Definition quote : ascii := ascii_of_nat 39.
Definition dquote : ascii := ascii_of_nat 34.
Definition backslash : ascii := ascii_of_nat 92.

Fixpoint contains (c : ascii) (s : string) : bool :=
  match s with
  | EmptyString => false
  | String c' s' => Ascii.eqb c' c || contains c s'
  end.

Definition hex_digit (n : nat) : ascii :=
  nth n ["0"; "1"; "2"; "3"; "4"; "5"; "6"; "7"; "8"; "9"; "a"; "b"; "c"; "d"; "e"; "f"]%char "0"%char.

Definition repr_char (q c : ascii) : string :=
  let n := nat_of_ascii c in
  if Ascii.eqb c q || Ascii.eqb c backslash then String backslash (String c "")
  else if (n =? 9)%nat then String backslash "t"
  else if (n =? 10)%nat then String backslash "n"
  else if (n =? 13)%nat then String backslash "r"
  else if (n <? 32)%nat || in_range 127 160 n || (n =? 173)%nat
  then String backslash (String "x" (String (hex_digit (n / 16)) (String (hex_digit (n mod 16)) "")))
  else String c "".

Fixpoint repr_chars (q : ascii) (s : string) : string :=
  match s with
  | EmptyString => ""
  | String c s' => repr_char q c ++ repr_chars q s'
  end.

Definition repr_str (s : string) : string :=
  let q := if contains quote s && negb (contains dquote s) then dquote else quote in
  String q (repr_chars q s ++ String q "").

Definition repr_int (z : Z) : string := NilZero.string_of_int (Z.to_int z).

Fixpoint repr (v : value) : string :=
  match v with
  | VNone => "None"
  | VBool true => "True"
  | VBool false => "False"
  | VInt z => repr_int z
  | VFloat f => float_repr f
  | VStr s => repr_str s
  | VList l => "[" ++ join ", " (map repr l) ++ "]"
  | VDict d => "{" ++ join ", " (map (fun '(k, x) => repr_str k ++ ": " ++ repr x) d) ++ "}"
  end.

(** [str(v)] *)
Definition str (v : value) : string :=
  match v with
  | VStr s => s
  | _ => repr v
  end.

(** Method calls that only [str] has *)
Definition call_strip (v : value) : result string :=
  match v with
  | VStr s => Ok (strip s)
  | _ => Raise (no_attribute v "strip")
  end.

(** [a or b], [b] being evaluated only when [a] is falsy *)
Definition or_else (a : value) (b : result value) : result value :=
  if truthy a then Ok a else b.

Definition or_ (a b : value) : value := if truthy a then a else b.

End Py.

Import Py.

Notation "x <- c1 ;; c2" := (bind c1 (fun x => c2))
  (at level 61, c1 at next level, right associativity).


(* ================================================================= *)
(** ** The record normaliser *)

(** [truncate_text(value, max_length=25)] *)
Definition truncate_text (value : value) (max_length : Z) : string :=
  match value with
  | VStr s =>
      if (len s <=? max_length)%Z then s
      else slice_to s (max_length - 3) ++ "..."
  | _ => ""
  end.

Definition default_max_length : Z := 25.

(** The comprehension
    [[h.strip() for h in text.replace(",", " ").split() if h.strip()]],
    which [extract_hostnames] applies to both text forms. *)
Definition split_text (text : string) : list string :=
  map strip
    (filter (fun h => negb (is_empty (strip h)))
       (split (replace "," " " text))).

Definition extract_hostnames (container : value) : result (list string) :=
  if negb (truthy container) then Ok []
  else
    ns <- get container "nameServers" ;;
    let name_servers := or_ ns (VDict []) in
    if negb (is_dict name_servers) then Ok []
    else
      hosts <- get name_servers "hostNames" ;;
      match hosts with
      | VList l => Ok (map str l)
      | VStr s => Ok (split_text s)
      | _ =>
          raw <- get name_servers "rawText" ;;
          match raw with
          | VStr s => Ok (split_text s)
          | _ => Ok []
          end
      end.

Definition is_nil {A} (l : list A) : bool :=
  match l with [] => true | _ => false end.

Definition normalize_hostnames (record : value) : result string :=
  hostnames <- extract_hostnames record ;;
  hostnames <-
    (if is_nil hostnames
     then
       rd <- get record "registryData" ;;
       let registry_data := or_ rd (VDict []) in
       if is_dict registry_data then extract_hostnames registry_data
       else Ok hostnames
     else Ok hostnames) ;;
  if is_nil hostnames then Ok ""
  else
    let truncated := map (fun h => truncate_text (VStr h) default_max_length) hostnames in
    Ok (join ", " truncated).

(** The closure [pick] of [extract_domain_information], with the two
    variables it captures and its variadic [keys] as a list. *)
Fixpoint pick (record registry_data : value) (keys : list string) : result value :=
  match keys with
  | [] => Ok VNone
  | k :: keys' =>
      v <- get record k ;;
      if truthy v then Ok v
      else
        v <- get registry_data k ;;
        if truthy v then Ok v
        else pick record registry_data keys'
  end.

(** [(record.get("registrar") or {}).get("name")
     if isinstance(record.get("registrar"), dict) else None] *)
Definition registrar_name (record : value) : result value :=
  r <- get record "registrar" ;;
  if is_dict r
  then r' <- get record "registrar" ;; get (or_ r' (VDict [])) "name"
  else Ok VNone.

Definition extract_domain_information (record : value) : result value :=
  rd <- get record "registryData" ;;
  let registry_data := or_ rd (VDict []) in
  let registry_data := if negb (is_dict registry_data) then VDict [] else registry_data in
  dn <- pick record registry_data ["domainName"] ;;
  let domain_name := or_ dn (VStr "") in
  rn <- pick record registry_data ["registrarName"] ;;
  registrar <- or_else rn (n <- registrar_name record ;; Ok (or_ n (VStr ""))) ;;
  cd <- pick record registry_data ["createdDate"] ;;
  let created := or_ cd (VStr "") in
  ed <- pick record registry_data ["expiresDate"] ;;
  let expires := or_ ed (VStr "") in
  estimated_age <- pick record registry_data ["estimatedDomainAge"] ;;
  hostnames <- normalize_hostnames record ;;
  Ok (VDict [ ("domainName", domain_name);
              ("registrar", registrar);
              ("registrationDate", created);
              ("expirationDate", expires);
              ("estimatedDomainAge", estimated_age);
              ("hostnames", VStr hostnames) ]).

(** [record.get(key) if isinstance(record.get(key), dict) else {}] *)
Definition sub_object (record : value) (key : string) : result value :=
  r <- get record key ;;
  if is_dict r then get record key else Ok (VDict []).

Definition extract_contact_information (record : value) : result value :=
  registrant <- sub_object record "registrant" ;;
  tech <- sub_object record "technicalContact" ;;
  admin <- sub_object record "administrativeContact" ;;
  rn <- get registrant "name" ;;
  tn <- get tech "name" ;;
  an <- get admin "name" ;;
  ce <- get record "contactEmail" ;;
  email <- or_else ce (e <- get registrant "email" ;; Ok (or_ e (VStr ""))) ;;
  Ok (VDict [ ("registrantName", or_ rn (VStr ""));
              ("technicalContactName", or_ tn (VStr ""));
              ("administrativeContactName", or_ an (VStr ""));
              ("contactEmail", email) ]).

(* ================================================================= *)
(** ** The logging sink *)

(** [get_env(key, default)] over [os.environ] *)
Definition get_env (environ : list (string * string)) (key : string)
    (default : option string) : option string :=
  match lookup environ key with
  | Some s => Some s
  | None => default
  end.

(** What a call of [log_lookup] does with the database.  The driver
    ([MySQLdb]) is not part of the program: a run is the list of driver
    operations it attempts, and the driver decides, from what happened so
    far, whether an operation raises. *)
Module Sink.

(** The keyword arguments of [MySQLdb.connect] *)
Record db_config := {
  host : string;
  user : string;
  passwd : string;
  db : string;
  port : Z;
  charset : string
}.

(** The parameters of the [INSERT] *)
Record row := {
  r_domain : value;
  r_info_type : value;
  r_http_status : Z;
  r_success : Z;
  r_registrar : value
}.

Inductive statement :=
| CreateTable
| Insert (r : row).

Inductive op :=
| Connect (cfg : db_config)
| Cursor
| Execute (s : statement)
| Commit
| Close.

(** Computations over the operations attempted so far *)
Definition D (A : Type) : Type := list op -> result A * list op.

Definition bindD {A B} (c : D A) (k : A -> D B) : D B :=
  fun t =>
    match c t with
    | (Ok a, t') => k a t'
    | (Raise e, t') => (Raise e, t')
    end.

Section Database.

(** Whether [import MySQLdb] succeeded *)
Variable MYSQL_AVAILABLE : bool.
(** [int(s)] on a [str] *)
Variable int_of_str : string -> result Z.
Variable environ : list (string * string).
(** The driver: the exception an operation raises, if any *)
Variable fails : list op -> op -> option exn.

Definition perform (o : op) : D unit :=
  fun t =>
    (match fails t o with
     | Some e => Raise e
     | None => Ok tt
     end, (t ++ [o])%list).

Definition is_set (v : option string) : bool :=
  match v with
  | Some s => negb (is_empty s)
  | None => false
  end.

Definition get_db_config : result (option db_config) :=
  if negb MYSQL_AVAILABLE then Ok None
  else
    let host := get_env environ "MYSQL_HOST" None in
    let user := get_env environ "MYSQL_USER" None in
    let password := get_env environ "MYSQL_PASSWORD" None in
    let db := get_env environ "MYSQL_DB" None in
    port <- (match get_env environ "MYSQL_PORT" (Some "3306") with
             | Some s => if is_empty s then Ok 3306%Z else int_of_str s
             | None => Ok 3306%Z
             end) ;;
    match host, user, db with
    | Some h, Some u, Some d =>
        if forallb is_set [host; user; db]
        then Ok (Some {| host := h; user := u;
                         passwd := match password with
                                   | Some pw => pw
                                   | None => ""
                                   end;
                         db := d; port := port; charset := "utf8mb4" |})
        else Ok None
    | _, _, _ => Ok None
    end.

(** [Some tt] stands for the connection object *)
Definition get_db_connection : D (option unit) :=
  fun t =>
    match get_db_config with
    | Raise e => (Raise e, t)
    | Ok None => (Ok None, t)
    | Ok (Some cfg) =>
        match perform (Connect cfg) t with
        | (Ok _, t') => (Ok (Some tt), t')
        | (Raise _, t') => (Ok None, t')
        end
    end.

(** The body shared by [init_db] and [log_lookup] once connected:
    [try: cur = conn.cursor(); cur.execute(s); conn.commit()]
    [except Exception: ...] [finally: try: conn.close() except: pass] *)
Definition execute_and_close (s : statement) : D unit :=
  fun t =>
    let '(_, t1) :=
      bindD (perform Cursor)
        (fun _ => bindD (perform (Execute s)) (fun _ => perform Commit)) t in
    let '(_, t2) := perform Close t1 in
    (Ok tt, t2).

Definition init_db : D unit :=
  bindD get_db_connection
    (fun conn =>
       match conn with
       | None => fun t => (Ok tt, t)
       | Some _ => execute_and_close CreateTable
       end).

Definition log_lookup (domain info_type : value) (http_status : Z)
    (success : bool) (registrar : value) : D unit :=
  bindD get_db_connection
    (fun conn =>
       match conn with
       | None => fun t => (Ok tt, t)
       | Some _ =>
           execute_and_close
             (Insert {| r_domain := domain; r_info_type := info_type;
                        r_http_status := http_status;
                        r_success := if success then 1%Z else 0%Z;
                        r_registrar := or_ registrar VNone |})
       end).

End Database.

End Sink.

(* ================================================================= *)
(** ** The lookup orchestrator *)

(** One call of [log_lookup], with the arguments it hands to the sink *)
Record attempt := {
  a_domain : value;
  a_info_type : value;
  a_http_status : Z;
  a_success : bool;
  a_registrar : value
}.

(** What a request leaves behind: the calls of [log_lookup], the calls of
    [requests.get] (their [params]) and the operations attempted on the
    database driver, oldest first. *)
Record world := {
  attempts : list attempt;
  upstream_calls : list (list (string * string));
  driver : list Sink.op
}.

Definition initial : world :=
  {| attempts := []; upstream_calls := []; driver := [] |}.

(** Computations that change the world and may raise; the world survives an
    exception. *)
Definition M (A : Type) : Type := world -> result A * world.

Definition ret {A} (a : A) : M A := fun w => (Ok a, w).

Definition bindM {A B} (c : M A) (k : A -> M B) : M B :=
  fun w =>
    match c w with
    | (Ok a, w') => k a w'
    | (Raise e, w') => (Raise e, w')
    end.

Definition lift {A} (r : result A) : M A := fun w => (r, w).

Declare Scope io_scope.
Delimit Scope io_scope with io.
Notation "x <- c1 ;; c2" := (bindM c1 (fun x => c2))
  (at level 61, c1 at next level, right associativity) : io_scope.

(** The upstream provider's answer to [requests.get]: [resp.status_code],
    [resp.text] and what [resp.json()] does. *)
Record response := {
  status_code : Z;
  text : string;
  json : result value
}.

(** An inbound request: the result of [request.get_json(silent=True)]
    ([VNone] when there is no JSON body) and the query string behind
    [request.args]. *)
Record request := {
  get_json : value;
  args : list (string * string)
}.

(** [request.args.get(key)] *)
Definition args_get (req : request) (key : string) : value :=
  match lookup (args req) key with
  | Some s => VStr s
  | None => VNone
  end.

(** [requests.get(WHOIS_API_URL, params=params, timeout=20)]: the provider
    either answers or the call raises ([Timeout] past the deadline). *)
Definition requests_get (upstream : list (string * string) -> result response)
    (params : list (string * string)) : M response :=
  fun w =>
    (upstream params,
     {| attempts := attempts w;
        upstream_calls := upstream_calls w ++ [params];
        driver := driver w |}).

(** [jsonify(body), status] *)
Definition reply : Type := value * Z.

Definition exn_str (e : exn) : string :=
  match e with
  | AttributeError msg => msg
  | Timeout => ""
  | OtherError msg => msg
  end.

(** [payload.get(key) or request.args.get(key) or ""], the operand of
    [.strip()] in the two statements that read the request *)
Definition raw_field (req : request) (key : string) : result value :=
  let payload := or_ (get_json req) (VDict []) in
  v <- get payload key ;;
  Ok (or_ v (or_ (args_get req key) (VStr ""))).

(** [(payload.get(key) or request.args.get(key) or "").strip()] *)
Definition request_field (req : request) (key : string) : result string :=
  v <- raw_field req key ;;
  call_strip v.

Section Lookup.

(** Whether [import MySQLdb] succeeded, [int(s)] on a [str], [os.environ],
    the database driver and the provider *)
Variable MYSQL_AVAILABLE : bool.
Variable int_of_str : string -> result Z.
Variable environ : list (string * string).
Variable fails : list Sink.op -> Sink.op -> option exn.
Variable upstream : list (string * string) -> result response.
Variable req : request.

(** [log_lookup(domain, info_type, http_status, success, registrar)] as the
    view calls it: the call is recorded with its arguments and its body runs
    against the driver.  It raises what reading the configuration raises. *)
Definition log_lookup (domain info_type : value) (http_status : Z)
    (success : bool) (registrar : value) : M unit :=
  fun w =>
    let '(r, t) :=
      Sink.log_lookup MYSQL_AVAILABLE int_of_str environ fails
        domain info_type http_status success registrar (driver w) in
    (r,
     {| attempts := attempts w ++
          [ {| a_domain := domain; a_info_type := info_type;
               a_http_status := http_status; a_success := success;
               a_registrar := or_ registrar VNone |} ];
        upstream_calls := upstream_calls w;
        driver := t |}).

(** The [try] block of [whois_lookup] *)
Definition whois_lookup_try : M reply :=
  (domain <- lift (request_field req "domain") ;;
   t' <- lift (request_field req "type") ;;
   let info_type := lower t' in
   if is_empty domain
   then ret (VDict [("error", VStr "Missing 'domain'")], 400%Z)
   else if negb (existsb (String.eqb info_type) ["domain"; "contact"])
   then ret (VDict [("error", VStr "Invalid 'type'. Use 'domain' or 'contact'")], 400%Z)
   else
     match get_env environ "WHOIS_API_KEY" None with
     | None | Some "" =>
         ret (VDict [("error", VStr "Server not configured with WHOIS_API_KEY")], 500%Z)
     | Some api_key =>
         let params := [("apiKey", api_key); ("domainName", domain);
                        ("outputFormat", "JSON")] in
         resp <- requests_get upstream params ;;
         if negb (status_code resp =? 200)%Z
         then
           _ <- log_lookup (VStr domain) (VStr info_type) (status_code resp) false VNone ;;
           ret (VDict [("error", VStr "Upstream whois service error");
                       ("status", VInt (status_code resp));
                       ("details", VStr (slice_to (text resp) 300))], 502%Z)
         else
           data <- lift (json resp) ;;
           r <- lift (get data "WhoisRecord") ;;
           let record := or_ r (VDict []) in
           if negb (truthy record)
           then
             _ <- log_lookup (VStr domain) (VStr info_type) 404 false VNone ;;
             ret (VDict [("error", VStr "Whois record not found for domain")], 404%Z)
           else
             p <- (if String.eqb info_type "domain"
                   then
                     result <- lift (extract_domain_information record) ;;
                     registrar_for_log <- lift (get result "registrar") ;;
                     ret (result, registrar_for_log)
                   else
                     result <- lift (extract_contact_information record) ;;
                     registrar_for_log <- lift (registrar_name record) ;;
                     ret (result, registrar_for_log)) ;;
             let '(result, registrar_for_log) := p in
             _ <- log_lookup (VStr domain) (VStr info_type) 200 true registrar_for_log ;;
             ret (VDict [("domain", VStr domain); ("type", VStr info_type);
                         ("data", result)], 200%Z)
     end)%io.

(** [whois_lookup]: the [try] block under its two handlers.  A run gives the
    reply the view returns, or the exception that escapes a handler, and the
    world tells what was logged, requested and done on the driver. *)
Definition whois_lookup : M reply :=
  fun w =>
    match whois_lookup_try w with
    | (Ok r, w') => (Ok r, w')
    | (Raise Timeout, w') =>
        (_ <- log_lookup (or_ (args_get req "domain") (VStr ""))
                         (or_ (args_get req "type") (VStr "")) 504 false VNone ;;
         ret (VDict [("error", VStr "Upstream whois request timed out")], 504%Z))%io w'
    | (Raise exc, w') =>
        (_ <- log_lookup (VStr "") (VStr "") 500 false VNone ;;
         ret (VDict [("error", VStr "Unexpected server error");
                     ("details", VStr (exn_str exc))], 500%Z))%io w'
    end.

End Lookup.

(* ================================================================= *)
(** ** The specification's vocabulary *)

Definition is_delimiter (c : ascii) : bool := Ascii.eqb c "," || isspace c.

(** The pieces of [s] between delimiters, empty ones included *)
Fixpoint fragments (delim : ascii -> bool) (s : string) : list string :=
  match s with
  | EmptyString => [""]
  | String c s' =>
      if delim c then "" :: fragments delim s'
      else match fragments delim s' with
           | f :: fs => String c f :: fs
           | [] => [String c ""]
           end
  end.

(** Follows the specification: split on commas and whitespace, discard the
    empty fragments, trim each fragment. *)
Definition spec_split (s : string) : list string :=
  map strip (filter (fun f => negb (is_empty f)) (fragments is_delimiter s)).

(** Follows the specification: the host names of a container, by the
    priority of the representations inside its ["nameServers"] object. *)
Definition spec_host_names (container : list (string * value)) : list string :=
  match dict_get container "nameServers" with
  | VDict name_servers =>
      match dict_get name_servers "hostNames" with
      | VList l => map str l
      | VStr s => spec_split s
      | _ =>
          match dict_get name_servers "rawText" with
          | VStr s => spec_split s
          | _ => []
          end
      end
  | _ => []
  end.

(** The record's ["registryData"] when it is an object, no fields otherwise *)
Definition registry_of (record : list (string * value)) : list (string * value) :=
  match dict_get record "registryData" with
  | VDict rd => rd
  | _ => []
  end.

(** Follows the specification: primary record first, ["registryData"] if
    that yields no name. *)
Definition spec_names (record : list (string * value)) : list string :=
  match spec_host_names record with
  | [] => spec_host_names (registry_of record)
  | names => names
  end.

(** Follows the specification: a field is present when its value is truthy;
    the first present one of the primary record and ["registryData"] wins. *)
Definition first_present (record : list (string * value)) (k : string) : option value :=
  if truthy (dict_get record k) then Some (dict_get record k)
  else if truthy (dict_get (registry_of record) k)
       then Some (dict_get (registry_of record) k)
       else None.

(** The field [k] of the sub-object [key] of the record, when the sub-object
    is an object and the field is truthy *)
Definition sub_field (record : list (string * value)) (key k : string) : option value :=
  match dict_get record key with
  | VDict o => if truthy (dict_get o k) then Some (dict_get o k) else None
  | _ => None
  end.

Definition or_default (o : option value) (default : value) : value :=
  match o with
  | Some v => v
  | None => default
  end.

Definition valid_type (info_type : string) : bool :=
  String.eqb info_type "domain" || String.eqb info_type "contact".

Definition key_configured (environ : list (string * string)) : bool :=
  match lookup environ "WHOIS_API_KEY" with
  | Some k => negb (is_empty k)
  | None => false
  end.

(** A validation failure: both inputs were read (each is absent or a
    string), and the domain is empty or the type is neither view.  A request
    whose input cannot be read does not get as far as validation. *)
Definition validation_failure (req : request) : bool :=
  match request_field req "domain", request_field req "type" with
  | Ok domain, Ok t => is_empty domain || negb (valid_type (lower t))
  | _, _ => false
  end.

(** The inputs are valid and no provider credential is configured *)
Definition configuration_failure (environ : list (string * string)) (req : request) : bool :=
  match request_field req "domain", request_field req "type" with
  | Ok domain, Ok t =>
      negb (is_empty domain) && valid_type (lower t) && negb (key_configured environ)
  | _, _ => false
  end.

(** Two dicts that answer every lookup alike, except for one key *)
Definition agree_except (key : string) (d d' : list (string * value)) : Prop :=
  forall k, k <> key -> dict_get d k = dict_get d' k.

(** The reply of a run, when the run returns one *)
Definition reply_of (r : result reply * world) : option reply :=
  match fst r with
  | Ok x => Some x
  | Raise _ => None
  end.

Definition status_of (r : result reply * world) : option Z :=
  option_map snd (reply_of r).
Definition body_of (r : result reply * world) : option value :=
  option_map fst (reply_of r).
Definition world_of (r : result reply * world) : world := snd r.

(** The world after one more call of [log_lookup] that left the driver with
    the operations [t], and after one more call of the provider *)
Definition logged (w : world) (a : attempt) (t : list Sink.op) : world :=
  {| attempts := attempts w ++ [a];
     upstream_calls := upstream_calls w;
     driver := t |}.

Definition called (w : world) (params : list (string * string)) : world :=
  {| attempts := attempts w;
     upstream_calls := upstream_calls w ++ [params];
     driver := driver w |}.

(** Every character of [s] passes [p] *)
Fixpoint all_chars (p : ascii -> bool) (s : string) : bool :=
  match s with
  | EmptyString => true
  | String c s' => p c && all_chars p s'
  end.

Definition nonempty (s : string) : bool := negb (is_empty s).

(** [cur] glued in front of the first fragment *)
Definition glue (cur : string) (fs : list string) : list string :=
  match fs with
  | f :: fs' => (cur ++ f) :: fs'
  | [] => []
  end.

(** A name as the text forms yield it: not empty, no comma, no whitespace *)
Definition clean_name (s : string) : bool :=
  nonempty s && all_chars (fun c => negb (is_delimiter c)) s.

(** The first truthy value of a list, [None] when there is none *)
Fixpoint first_truthy (l : list value) : value :=
  match l with
  | [] => VNone
  | v :: l' => if truthy v then v else first_truthy l'
  end.

(** The candidates of [pick], in the order it reads them *)
Definition candidates (record registry_data : list (string * value))
    (keys : list string) : list value :=
  flat_map (fun k => [dict_get record k; dict_get registry_data k]) keys.

(** The request gets as far as the provider call *)
Definition reaches_upstream (environ : list (string * string)) (req : request) : bool :=
  match request_field req "domain", request_field req "type" with
  | Ok domain, Ok t =>
      negb (is_empty domain) && valid_type (lower t) && key_configured environ
  | _, _ => false
  end.

(* ================================================================= *)
(** ** Strings: splitting and trimming *)

Section SplitLemmas.

Lemma append_empty (s : string) : s ++ "" = s.
Proof. induction s as [|c s IH]; simpl; [reflexivity | now rewrite IH]. Qed.

Lemma append_char_assoc (s t : string) (c : ascii) :
  (s ++ String c "") ++ t = s ++ String c t.
Proof. induction s as [|c' s IH]; simpl; [reflexivity | now rewrite IH]. Qed.

Lemma append_is_empty (s t : string) :
  is_empty (s ++ t) = is_empty s && is_empty t.
Proof. destruct s; reflexivity. Qed.

Lemma length_append (s t : string) :
  String.length (s ++ t) = String.length s + String.length t.
Proof. induction s as [|c s IH]; simpl; [reflexivity | now rewrite IH]. Qed.

Lemma fragments_cons (delim : ascii -> bool) (s : string) :
  exists f fs, fragments delim s = f :: fs.
Proof.
  induction s as [|c s [f [fs IH]]]; simpl.
  - now exists "", [].
  - destruct (delim c); [now eexists; eexists|].
    rewrite IH. now eexists; eexists.
Qed.

Lemma glue_empty (fs : list string) : glue "" fs = fs.
Proof. destruct fs; reflexivity. Qed.

(** [split] keeps the non-empty fragments between whitespace. *)
Lemma split_from_fragments (s cur : string) :
  split_from cur s = filter nonempty (glue cur (fragments isspace s)).
Proof.
  revert cur; induction s as [|c s IH]; intros cur; simpl.
  - rewrite append_empty. unfold nonempty. now destruct (is_empty cur).
  - destruct (isspace c) eqn:Hc; simpl.
    + rewrite append_empty, IH, glue_empty. unfold nonempty.
      now destruct (is_empty cur).
    + rewrite IH. destruct (fragments_cons isspace s) as [f [fs ->]]; simpl.
      now rewrite append_char_assoc.
Qed.

Lemma isspace_comma : isspace "," = false.
Proof. reflexivity. Qed.

Lemma fragments_replace (s : string) :
  fragments isspace (replace "," " " s) = fragments is_delimiter s.
Proof.
  induction s as [|c s IH]; simpl; [reflexivity|].
  unfold is_delimiter at 1. destruct (Ascii.eqb_spec c ",") as [->|Hne]; simpl.
  - now rewrite IH.
  - now rewrite IH.
Qed.

Lemma fragments_clean (delim : ascii -> bool) (s : string) :
  Forall (fun f => all_chars (fun c => negb (delim c)) f = true) (fragments delim s).
Proof.
  induction s as [|c s IH]; simpl.
  - now repeat constructor.
  - destruct (delim c) eqn:Hc.
    + now constructor.
    + destruct (fragments delim s) as [|f fs]; simpl.
      * repeat constructor. simpl. now rewrite Hc.
      * inversion IH as [|? ? Hf Hfs]; subst. constructor; [|assumption].
        simpl. now rewrite Hc.
Qed.

Lemma lstrip_clean (f : string) :
  all_chars (fun c => negb (isspace c)) f = true -> lstrip f = f.
Proof.
  destruct f as [|c f]; simpl; [reflexivity|].
  intros H. apply andb_true_iff in H as [Hc _].
  now destruct (isspace c).
Qed.

Lemma rstrip_clean (f : string) :
  all_chars (fun c => negb (isspace c)) f = true -> rstrip f = f.
Proof.
  induction f as [|c f IH]; simpl; [reflexivity|].
  intros H. apply andb_true_iff in H as [Hc Hf].
  rewrite (IH Hf). now destruct (isspace c).
Qed.

Lemma strip_clean (f : string) :
  all_chars (fun c => negb (isspace c)) f = true -> strip f = f.
Proof.
  intros H. unfold strip. rewrite (lstrip_clean f H). now apply rstrip_clean.
Qed.

Lemma delimiter_free_no_space (f : string) :
  all_chars (fun c => negb (is_delimiter c)) f = true ->
  all_chars (fun c => negb (isspace c)) f = true.
Proof.
  induction f as [|c f IH]; simpl; [reflexivity|].
  intros H. apply andb_true_iff in H as [Hc Hf].
  rewrite (IH Hf), andb_true_r. unfold is_delimiter in Hc.
  apply negb_true_iff, orb_false_iff in Hc as [_ ->]. reflexivity.
Qed.

Lemma filter_strip_clean (fs : list string) :
  Forall (fun f => all_chars (fun c => negb (isspace c)) f = true) fs ->
  filter (fun h => negb (is_empty (strip h))) fs = filter nonempty fs.
Proof.
  induction 1 as [|f fs Hf _ IH]; simpl; [reflexivity|].
  rewrite (strip_clean f Hf), IH. reflexivity.
Qed.

Lemma filter_twice {A} (p : A -> bool) (l : list A) :
  filter p (filter p l) = filter p l.
Proof.
  induction l as [|x l IH]; simpl; [reflexivity|].
  destruct (p x) eqn:E; simpl; [rewrite E|]; now rewrite IH.
Qed.

Lemma Forall_filter_keeps {A} (P : A -> Prop) (p : A -> bool) (l : list A) :
  Forall P l -> Forall P (filter p l).
Proof.
  induction 1 as [|x l Hx _ IH]; simpl; [constructor|].
  destruct (p x); [now constructor | assumption].
Qed.

Lemma fragments_no_space (s : string) :
  Forall (fun f => all_chars (fun c => negb (isspace c)) f = true)
         (fragments is_delimiter s).
Proof.
  eapply Forall_impl; [|apply fragments_clean].
  intros f. apply delimiter_free_no_space.
Qed.

(** The program's replace-split-strip chain is the specification's split. *)
Lemma split_text_spec (s : string) : split_text s = spec_split s.
Proof.
  unfold split_text, spec_split, split.
  rewrite split_from_fragments, glue_empty, fragments_replace.
  rewrite filter_strip_clean.
  - now rewrite filter_twice.
  - apply Forall_filter_keeps, fragments_no_space.
Qed.

End SplitLemmas.

(* ================================================================= *)
(** ** The hostname normaliser *)

Section Hostnames.

Implicit Types (record container : list (string * value)) (s : string).

Lemma dict_or_empty (d : list (string * value)) : or_ (VDict d) (VDict []) = VDict d.
Proof. destruct d; reflexivity. Qed.

Lemma spec_host_names_nil : spec_host_names [] = [].
Proof. reflexivity. Qed.

(** On a mapping, [extract_hostnames] returns and yields the names the
    specification describes. *)
Lemma extract_hostnames_dict container :
  extract_hostnames (VDict container) = Ok (spec_host_names container).
Proof.
  unfold extract_hostnames, spec_host_names.
  destruct container as [|kv container']; [reflexivity|].
  set (d := kv :: container'). cbn [truthy negb get bind].
  destruct (dict_get d "nameServers") as [ |[]|[| |]|[[] ?]|[|]|[|]|ns];
    try reflexivity.
  rewrite dict_or_empty. cbn [is_dict negb get bind].
  destruct (dict_get ns "hostNames") as [ |b|z|f|s|l|hd];
    try (now rewrite split_text_spec); try reflexivity;
    destruct (dict_get ns "rawText"); try reflexivity;
    now rewrite split_text_spec.
Qed.

Lemma registry_data_dict record :
  (if is_dict (or_ (dict_get record "registryData") (VDict []))
   then extract_hostnames (or_ (dict_get record "registryData") (VDict []))
   else Ok []) = Ok (spec_host_names (registry_of record)).
Proof.
  unfold registry_of.
  destruct (dict_get record "registryData") as [ |[]|[| |]|[[] ?]|[|]|[|]|rd];
    try reflexivity.
  rewrite dict_or_empty. cbn [is_dict]. apply extract_hostnames_dict.
Qed.

(** The closed form of the normaliser on a mapping. *)
Lemma normalize_hostnames_dict record :
  normalize_hostnames (VDict record)
  = Ok (join ", " (map (fun h => truncate_text (VStr h) default_max_length)
                       (spec_names record))).
Proof.
  unfold normalize_hostnames, spec_names.
  rewrite extract_hostnames_dict. cbn [bind].
  destruct (spec_host_names record) as [|h hs] eqn:E.
  - cbn [is_nil get bind].
    rewrite registry_data_dict. cbn [bind].
    now destruct (spec_host_names (registry_of record)).
  - reflexivity.
Qed.

Lemma length_take (n : nat) s : String.length (take n s) = Nat.min n (String.length s).
Proof.
  revert s; induction n as [|n IH]; intros [|c s]; simpl; try reflexivity.
  now rewrite IH.
Qed.

Lemma slice_to_take s (n : nat) : slice_to s (Z.of_nat n) = take n s.
Proof.
  unfold slice_to, len.
  destruct (Z.of_nat n <? 0)%Z eqn:E; [apply Z.ltb_lt in E; lia|].
  destruct (Nat.le_gt_cases n (String.length s)) as [Hle|Hgt].
  - rewrite Z.min_l by lia. now rewrite Nat2Z.id.
  - rewrite Z.min_r by lia. rewrite Nat2Z.id.
    clear E. revert n Hgt. induction s as [|c s IH]; intros [|n] H; simpl in *;
      try reflexivity; try lia.
    f_equal. apply IH. lia.
Qed.

Lemma truncate_text_short s :
  String.length s <= 25 -> truncate_text (VStr s) default_max_length = s.
Proof.
  intros H. unfold truncate_text, default_max_length, len.
  destruct (Z.leb_spec (Z.of_nat (String.length s)) 25); [reflexivity | lia].
Qed.

Lemma truncate_text_long s :
  25 < String.length s ->
  truncate_text (VStr s) default_max_length = take 22 s ++ "...".
Proof.
  intros H. unfold truncate_text, default_max_length, len.
  destruct (Z.leb_spec (Z.of_nat (String.length s)) 25); [lia|].
  change (25 - 3)%Z with (Z.of_nat 22). now rewrite slice_to_take.
Qed.

Lemma truncate_text_length (v : value) :
  String.length (truncate_text v default_max_length) <= 25.
Proof.
  destruct v as [ |b|z|f|s|l|d]; try (simpl; lia).
  destruct (Nat.le_gt_cases (String.length s) 25) as [Hle|Hgt].
  - now rewrite truncate_text_short.
  - rewrite truncate_text_long by assumption.
    rewrite length_append, length_take.
    change (String.length "...") with 3. lia.
Qed.

End Hostnames.

(* ================================================================= *)
(** ** Claims on the hostname normaliser *)

(** C1.  For every record-like mapping the normaliser returns the host names
    of the ["nameServers"] object, read by priority (a list element by
    element through [str], else a string split on commas and whitespace with
    empty fragments dropped and fragments trimmed, else the raw text split
    alike, else nothing), taken from the primary record or, when that yields
    none, from an object-valued ["registryData"]; the names, each truncated,
    are joined with [", "] in extraction order (one name alone, and
    otherwise the first name, the separator and the join of the others), and
    the result is the empty string when both attempts yield nothing.  The
    program's replace-split-strip chain is the specification's split. *)
Theorem normalize_hostnames_spec
    (record : list (string * value)) (text a b : string) (rest : list string) :
  normalize_hostnames (VDict record)
  = Ok (join ", " (map (fun h => truncate_text (VStr h) default_max_length)
                       (spec_names record)))
  /\ split_text text = spec_split text
  /\ join ", " [a] = a
  /\ join ", " (a :: b :: rest) = a ++ ", " ++ join ", " (b :: rest)
  /\ (spec_names record = [] -> normalize_hostnames (VDict record) = Ok "").
Proof.
  split; [apply normalize_hostnames_dict|].
  split; [apply split_text_spec|].
  split; [reflexivity|]. split; [reflexivity|].
  intros H. now rewrite normalize_hostnames_dict, H.
Qed.

Lemma normalize_hostnames_spec_witness :
  normalize_hostnames
    (VDict [("nameServers",
             VDict [("hostNames", VList [VStr "ns2.example.com"; VStr "ns1.example.com";
                                         VStr "ns2.example.com"]);
                    ("rawText", VStr "ignored.example.com")])])
  = Ok "ns2.example.com, ns1.example.com, ns2.example.com"
  /\ normalize_hostnames
       (VDict [("nameServers",
                VDict [("hostNames", VStr " ns1.example.com,,ns2.example.com   ns3.example.com ,")])])
     = Ok "ns1.example.com, ns2.example.com, ns3.example.com"
  /\ normalize_hostnames
       (VDict [("nameServers",
                VDict [("hostNames", VInt 2); ("rawText", VStr "b.example.org a.example.org")])])
     = Ok "b.example.org, a.example.org"
  /\ normalize_hostnames
       (VDict [("nameServers", VDict [("hostNames", VStr " , ")]);
               ("registryData",
                VDict [("nameServers",
                        VDict [("hostNames", VList [VStr "a-name-server-of-30-characters"])])])])
     = Ok "a-name-server-of-30-ch..."
  /\ normalize_hostnames
       (VDict [("nameServers", VDict [("hostNames", VStr " , ,")]);
               ("registryData", VStr "none")]) = Ok "".
Proof.
  split; [|split; [|split; [|split]]].
  - refine (eq_trans (proj1 (normalize_hostnames_spec _ "" "" "" [])) _). reflexivity.
  - refine (eq_trans (proj1 (normalize_hostnames_spec _ "" "" "" [])) _). reflexivity.
  - refine (eq_trans (proj1 (normalize_hostnames_spec _ "" "" "" [])) _). reflexivity.
  - refine (eq_trans (proj1 (normalize_hostnames_spec _ "" "" "" [])) _). reflexivity.
  - apply (normalize_hostnames_spec
             [("nameServers", VDict [("hostNames", VStr " , ,")]);
              ("registryData", VStr "none")] "" "" "" []).
    reflexivity.
Defined.

Example hostnames_string_form :
  normalize_hostnames
    (VDict [("nameServers",
             VDict [("hostNames", VStr "ns1.example.com, ns2.example.com")])])
  = Ok "ns1.example.com, ns2.example.com".
Proof. reflexivity. Qed.

Example hostnames_registry_fallback :
  normalize_hostnames
    (VDict [("nameServers", VDict [("hostNames", VList [])]);
            ("registryData",
             VDict [("nameServers",
                     VDict [("hostNames", VInt 3);
                            ("rawText", VStr "b.example.org,,  a.example.org b.example.org")])])])
  = Ok "b.example.org, a.example.org, b.example.org".
Proof. reflexivity. Qed.

(** C2.  Truncation leaves a string of at most 25 characters unchanged, maps
    a longer one to its first 22 characters followed by ["..."] (so a name of
    30 characters becomes its first 22 characters and the marker), maps a
    non-string to the empty string, and so every entry of the normaliser's
    joined output has at most 25 characters. *)
Theorem truncate_text_bound (s : string) (v : value) (record : list (string * value)) :
  (String.length s <= 25 -> truncate_text (VStr s) default_max_length = s)
  /\ (25 < String.length s ->
      truncate_text (VStr s) default_max_length = take 22 s ++ "..."
      /\ String.length (take 22 s) = 22)
  /\ (String.length s = 30 ->
      truncate_text (VStr s) default_max_length = take 22 s ++ "...")
  /\ (is_str v = false -> truncate_text v default_max_length = "")
  /\ exists entries,
       normalize_hostnames (VDict record) = Ok (join ", " entries)
       /\ List.length entries = List.length (spec_names record)
       /\ Forall (fun e => String.length e <= 25) entries.
Proof.
  repeat split.
  - apply truncate_text_short.
  - now apply truncate_text_long.
  - rewrite length_take. lia.
  - intros H. apply truncate_text_long. lia.
  - destruct v; try reflexivity. discriminate.
  - exists (map (fun h => truncate_text (VStr h) default_max_length) (spec_names record)).
    split; [apply normalize_hostnames_dict|].
    split; [apply length_map|].
    apply Forall_map, Forall_forall. intros h _. apply truncate_text_length.
Qed.

Lemma truncate_text_bound_witness :
  truncate_text (VStr "ns1.example.com") default_max_length = "ns1.example.com"
  /\ truncate_text (VStr "abcdefghijklmnopqrstuvwxyz0123") default_max_length
     = "abcdefghijklmnopqrstuv..."
  /\ truncate_text (VStr "abcdefghijklmnopqrstuvwxyz") default_max_length
     = "abcdefghijklmnopqrstuv..."
  /\ truncate_text (VInt 7) default_max_length = "".
Proof.
  split; [|split; [|split]].
  - apply (proj1 (truncate_text_bound "ns1.example.com" VNone [])). simpl; lia.
  - destruct (truncate_text_bound "abcdefghijklmnopqrstuvwxyz0123" VNone [])
      as (_ & _ & H & _).
    apply H. reflexivity.
  - destruct (truncate_text_bound "abcdefghijklmnopqrstuvwxyz" VNone [])
      as (_ & H & _).
    apply H. simpl; lia.
  - destruct (truncate_text_bound "" (VInt 7) []) as (_ & _ & _ & H & _).
    apply H. reflexivity.
Defined.

Lemma length_join (l : list string) :
  String.length (join ", " l)
  = list_sum (map String.length l) + 2 * (List.length l - 1).
Proof.
  induction l as [|x l IH]; [reflexivity|].
  destruct l as [|y l].
  - simpl. lia.
  - change (join ", " (x :: y :: l)) with (x ++ ", " ++ join ", " (y :: l)).
    rewrite !length_append, IH. simpl. lia.
Qed.

(** C9.  When the ["nameServers"] object of a record holds a non-empty list
    under ["hostNames"], every element counts as a host name, the empty
    string and falsy values included: the output is the [", "]-join of the
    truncated [str] of all elements, one entry per element and a separator
    between any two, whatever ["registryData"] holds. *)
Theorem hostnames_list_all_count
    (record name_servers : list (string * value)) (hosts : list value) :
  dict_get record "nameServers" = VDict name_servers ->
  dict_get name_servers "hostNames" = VList hosts ->
  hosts <> [] ->
  spec_names record = map str hosts
  /\ exists entries out,
       normalize_hostnames (VDict record) = Ok out
       /\ out = join ", " entries
       /\ entries = map (fun h => truncate_text (VStr (str h)) default_max_length) hosts
       /\ List.length entries = List.length hosts
       /\ (forall i h, nth_error hosts i = Some h -> str h = "" ->
                       nth_error entries i = Some "")
       /\ String.length out
          = list_sum (map String.length entries) + 2 * (List.length hosts - 1).
Proof.
  intros Hns Hh Hne.
  assert (Hnames : spec_names record = map str hosts).
  { unfold spec_names, spec_host_names. rewrite Hns, Hh.
    destruct hosts; [contradiction | reflexivity]. }
  split; [exact Hnames|].
  eexists. eexists. split; [|split; [reflexivity|split; [reflexivity|split; [|split]]]].
  - rewrite normalize_hostnames_dict, Hnames, map_map. reflexivity.
  - apply length_map.
  - intros i h Hi Hs. rewrite nth_error_map, Hi. simpl. now rewrite Hs.
  - rewrite length_join, length_map. reflexivity.
Qed.

Lemma hostnames_list_all_count_witness :
  normalize_hostnames
    (VDict [("nameServers", VDict [("hostNames", VList [VStr ""; VNone; VStr ""])]);
            ("registryData",
             VDict [("nameServers", VDict [("hostNames", VStr "ns1.example.com")])])])
  = Ok ", None, ".
Proof.
  destruct (hostnames_list_all_count
              [("nameServers", VDict [("hostNames", VList [VStr ""; VNone; VStr ""])]);
               ("registryData",
                VDict [("nameServers", VDict [("hostNames", VStr "ns1.example.com")])])]
              [("hostNames", VList [VStr ""; VNone; VStr ""])]
              [VStr ""; VNone; VStr ""])
    as (_ & entries & out & Hrun & Hout & Hentries & _).
  - reflexivity.
  - reflexivity.
  - discriminate.
  - rewrite Hrun, Hout, Hentries. reflexivity.
Defined.

Example hostnames_only_empty_element :
  normalize_hostnames
    (VDict [("nameServers", VDict [("hostNames", VList [VStr ""])]);
            ("registryData",
             VDict [("nameServers", VDict [("hostNames", VStr "ns1.example.com")])])])
  = Ok "".
Proof. reflexivity. Qed.

(* ================================================================= *)
(** ** The two extractors on a mapping *)

Section Extractors.

Implicit Types (record : list (string * value)) (k key : string).

Lemma registry_data_value record :
  (let registry_data := or_ (dict_get record "registryData") (VDict []) in
   if negb (is_dict registry_data) then VDict [] else registry_data)
  = VDict (registry_of record).
Proof.
  unfold registry_of.
  now destruct (dict_get record "registryData") as [ |[]|[| |]|[[] ?]|[|]|[|]|[|]].
Qed.

Lemma pick_single record k :
  pick (VDict record) (VDict (registry_of record)) [k]
  = Ok (or_default (first_present record k) VNone).
Proof.
  unfold first_present. cbn [pick get bind].
  destruct (truthy (dict_get record k)); [reflexivity|].
  now destruct (truthy (dict_get (registry_of record) k)).
Qed.

Lemma first_present_truthy record k v :
  first_present record k = Some v -> truthy v = true.
Proof.
  unfold first_present.
  destruct (truthy (dict_get record k)) eqn:E1; [now intros [= <-]|].
  destruct (truthy (dict_get (registry_of record) k)) eqn:E2; [now intros [= <-]|].
  discriminate.
Qed.

Lemma sub_field_truthy record key k v :
  sub_field record key k = Some v -> truthy v = true.
Proof.
  unfold sub_field. destruct (dict_get record key); try discriminate.
  destruct (truthy (dict_get d k)) eqn:E; [now intros [= <-] | discriminate].
Qed.

Lemma or_first_present record k (default : value) :
  or_ (or_default (first_present record k) VNone) default
  = or_default (first_present record k) default.
Proof.
  destruct (first_present record k) as [v|] eqn:E; simpl; [|reflexivity].
  unfold or_. now rewrite (first_present_truthy _ _ _ E).
Qed.

Lemma registrar_name_dict record :
  registrar_name (VDict record)
  = Ok (match dict_get record "registrar" with
        | VDict r => dict_get r "name"
        | _ => VNone
        end).
Proof.
  unfold registrar_name. cbn [get bind].
  destruct (dict_get record "registrar"); try reflexivity.
  cbn [is_dict get bind]. now rewrite dict_or_empty.
Qed.

Lemma or_sub_field record key k :
  or_ (match dict_get record key with
       | VDict o => dict_get o k
       | _ => VNone
       end) (VStr "")
  = or_default (sub_field record key k) (VStr "").
Proof.
  unfold sub_field, or_. destruct (dict_get record key); try reflexivity.
  now destruct (truthy (dict_get d k)).
Qed.

Lemma sub_object_dict record key :
  sub_object (VDict record) key
  = Ok (VDict (match dict_get record key with VDict o => o | _ => [] end)).
Proof.
  unfold sub_object. cbn [get bind].
  now destruct (dict_get record key).
Qed.

Lemma or_sub_object_field record key k :
  or_ (dict_get (match dict_get record key with VDict o => o | _ => [] end) k) (VStr "")
  = or_default (sub_field record key k) (VStr "").
Proof.
  unfold sub_field, or_. destruct (dict_get record key); try reflexivity.
  now destruct (truthy (dict_get d k)).
Qed.

(** The closed form of the Domain-Info extractor on a mapping. *)
Lemma extract_domain_information_dict record :
  extract_domain_information (VDict record)
  = Ok (VDict
      [ ("domainName", or_default (first_present record "domainName") (VStr ""));
        ("registrar",
         or_default (first_present record "registrarName")
           (or_default (sub_field record "registrar" "name") (VStr "")));
        ("registrationDate", or_default (first_present record "createdDate") (VStr ""));
        ("expirationDate", or_default (first_present record "expiresDate") (VStr ""));
        ("estimatedDomainAge", or_default (first_present record "estimatedDomainAge") VNone);
        ("hostnames",
         VStr (join ", " (map (fun h => truncate_text (VStr h) default_max_length)
                              (spec_names record)))) ]).
Proof.
  unfold extract_domain_information. cbn [get bind].
  rewrite registry_data_value, !pick_single. cbn [bind].
  rewrite !or_first_present, registrar_name_dict, normalize_hostnames_dict.
  cbn [bind]. rewrite or_sub_field.
  do 3 f_equal. f_equal.
  unfold or_else. destruct (first_present record "registrarName") as [v|] eqn:E.
  - simpl. now rewrite (first_present_truthy _ _ _ E).
  - reflexivity.
Qed.

(** The closed form of the Contact-Info extractor on a mapping. *)
Lemma extract_contact_information_dict record :
  extract_contact_information (VDict record)
  = Ok (VDict
      [ ("registrantName", or_default (sub_field record "registrant" "name") (VStr ""));
        ("technicalContactName",
         or_default (sub_field record "technicalContact" "name") (VStr ""));
        ("administrativeContactName",
         or_default (sub_field record "administrativeContact" "name") (VStr ""));
        ("contactEmail",
         if truthy (dict_get record "contactEmail")
         then dict_get record "contactEmail"
         else or_default (sub_field record "registrant" "email") (VStr "")) ]).
Proof.
  unfold extract_contact_information.
  rewrite !sub_object_dict. cbn [get bind].
  rewrite !or_sub_object_field. unfold or_else.
  now destruct (truthy (dict_get record "contactEmail")).
Qed.

End Extractors.

(* ================================================================= *)
(** ** Claims on the extractors *)

(** C3.  For every raw record the Domain-Info extractor fills domainName,
    registrar, registrationDate, expirationDate and estimatedDomainAge with
    the first present value of the field on the primary record and then on
    ["registryData"], where present means truthy, so that an empty string or
    null on the primary record falls through; registrar falls further to the
    ["name"] of an object-valued ["registrar"] and then to the empty string;
    domainName and the dates default to the empty string, estimatedDomainAge
    to [None], with no coercion of the value found. *)
Theorem extract_domain_information_spec (record : list (string * value)) (k : string) :
  extract_domain_information (VDict record)
  = Ok (VDict
      [ ("domainName", or_default (first_present record "domainName") (VStr ""));
        ("registrar",
         or_default (first_present record "registrarName")
           (or_default (sub_field record "registrar" "name") (VStr "")));
        ("registrationDate", or_default (first_present record "createdDate") (VStr ""));
        ("expirationDate", or_default (first_present record "expiresDate") (VStr ""));
        ("estimatedDomainAge", or_default (first_present record "estimatedDomainAge") VNone);
        ("hostnames",
         VStr (join ", " (map (fun h => truncate_text (VStr h) default_max_length)
                              (spec_names record)))) ])
  /\ (truthy (dict_get record k) = true ->
      first_present record k = Some (dict_get record k))
  /\ (dict_get record k = VStr "" \/ dict_get record k = VNone ->
      first_present record k
      = if truthy (dict_get (registry_of record) k)
        then Some (dict_get (registry_of record) k)
        else None).
Proof.
  split; [apply extract_domain_information_dict|].
  unfold first_present. split.
  - now intros ->.
  - now intros [-> | ->].
Qed.

Lemma extract_domain_information_spec_witness :
  first_present
    [("domainName", VStr "");
     ("registryData", VDict [("domainName", VStr "example.com")])] "domainName"
  = Some (VStr "example.com")
  /\ first_present
       [("estimatedDomainAge", VInt 9125);
        ("registryData", VDict [("estimatedDomainAge", VInt 1)])] "estimatedDomainAge"
     = Some (VInt 9125).
Proof.
  split.
  - destruct (extract_domain_information_spec
                [("domainName", VStr "");
                 ("registryData", VDict [("domainName", VStr "example.com")])]
                "domainName") as (_ & _ & H).
    apply H. left. reflexivity.
  - destruct (extract_domain_information_spec
                [("estimatedDomainAge", VInt 9125);
                 ("registryData", VDict [("estimatedDomainAge", VInt 1)])]
                "estimatedDomainAge") as (_ & H & _).
    apply H. reflexivity.
Defined.

Example domain_name_from_registry :
  extract_domain_information
    (VDict [("domainName", VStr "");
            ("registrar", VDict [("name", VStr "Example Registrar, Inc.")]);
            ("registryData", VDict [("domainName", VStr "example.com")])])
  = Ok (VDict [ ("domainName", VStr "example.com");
                ("registrar", VStr "Example Registrar, Inc.");
                ("registrationDate", VStr "");
                ("expirationDate", VStr "");
                ("estimatedDomainAge", VNone);
                ("hostnames", VStr "") ]).
Proof. reflexivity. Qed.

(** C4.  For every raw record the Contact-Info extractor returns the three
    contact names as the ["name"] of the corresponding sub-object when that
    is an object with a truthy name, and as the empty string otherwise;
    contactEmail is the first truthy of the record's ["contactEmail"] and the
    registrant's ["email"], else the empty string; and two records that
    differ only under ["registryData"] give the same output.  So a record
    that starts with a registrant object starting with a truthy name gives
    that name, and a record that starts with a truthy ["contactEmail"] gives
    that email. *)
Theorem extract_contact_information_spec
    (record record' rest o : list (string * value)) (v : value) :
  extract_contact_information (VDict record)
  = Ok (VDict
      [ ("registrantName", or_default (sub_field record "registrant" "name") (VStr ""));
        ("technicalContactName",
         or_default (sub_field record "technicalContact" "name") (VStr ""));
        ("administrativeContactName",
         or_default (sub_field record "administrativeContact" "name") (VStr ""));
        ("contactEmail",
         if truthy (dict_get record "contactEmail")
         then dict_get record "contactEmail"
         else or_default (sub_field record "registrant" "email") (VStr "")) ])
  /\ (agree_except "registryData" record record' ->
      extract_contact_information (VDict record')
      = extract_contact_information (VDict record))
  /\ (truthy v = true ->
      (exists tn an ce,
          extract_contact_information
            (VDict (("registrant", VDict (("name", v) :: o)) :: rest))
          = Ok (VDict [ ("registrantName", v); ("technicalContactName", tn);
                        ("administrativeContactName", an); ("contactEmail", ce) ]))
      /\ (exists rn tn an,
             extract_contact_information (VDict (("contactEmail", v) :: rest))
             = Ok (VDict [ ("registrantName", rn); ("technicalContactName", tn);
                           ("administrativeContactName", an); ("contactEmail", v) ]))).
Proof.
  split; [apply extract_contact_information_dict|]. split.
  - intros H. rewrite !extract_contact_information_dict. unfold sub_field.
    rewrite <- (H "registrant"), <- (H "technicalContact"),
            <- (H "administrativeContact"), <- (H "contactEmail");
      [reflexivity | discriminate..].
  - intros Hv. split.
    + rewrite extract_contact_information_dict. unfold sub_field.
      change (dict_get (("registrant", VDict (("name", v) :: o)) :: rest) "registrant")
        with (VDict (("name", v) :: o)).
      cbv beta iota. change (dict_get (("name", v) :: o) "name") with v.
      rewrite Hv. do 3 eexists. reflexivity.
    + rewrite extract_contact_information_dict.
      change (dict_get (("contactEmail", v) :: rest) "contactEmail") with v.
      rewrite Hv. do 3 eexists. reflexivity.
Qed.

Lemma extract_contact_information_spec_witness :
  extract_contact_information
    (VDict [("registryData",
             VDict [("registrant", VDict [("name", VStr "Registry Owner")]);
                    ("technicalContact", VDict [("name", VStr "Registry Tech")]);
                    ("contactEmail", VStr "registry@example.com")]);
            ("registrant", VDict [("name", VStr "Jane Roe");
                                  ("email", VStr "owner@example.com")]);
            ("technicalContact", VStr "n/a");
            ("administrativeContact", VDict [("name", VStr "Admin Team")])])
  = Ok (VDict [ ("registrantName", VStr "Jane Roe");
                ("technicalContactName", VStr "");
                ("administrativeContactName", VStr "Admin Team");
                ("contactEmail", VStr "owner@example.com") ])
  /\ extract_contact_information
       (VDict [("registrant", VDict [("name", VStr "Jane Roe");
                                     ("email", VStr "owner@example.com")]);
               ("technicalContact", VStr "n/a");
               ("administrativeContact", VDict [("name", VStr "Admin Team")])])
     = Ok (VDict [ ("registrantName", VStr "Jane Roe");
                   ("technicalContactName", VStr "");
                   ("administrativeContactName", VStr "Admin Team");
                   ("contactEmail", VStr "owner@example.com") ])
  /\ extract_contact_information
       (VDict [("contactEmail", VStr "hostmaster@example.com");
               ("registrant", VDict [("email", VStr "owner@example.com")])])
     = Ok (VDict [ ("registrantName", VStr "");
                   ("technicalContactName", VStr "");
                   ("administrativeContactName", VStr "");
                   ("contactEmail", VStr "hostmaster@example.com") ]).
Proof.
  assert (Hfull :
    extract_contact_information
      (VDict [("registryData",
               VDict [("registrant", VDict [("name", VStr "Registry Owner")]);
                      ("technicalContact", VDict [("name", VStr "Registry Tech")]);
                      ("contactEmail", VStr "registry@example.com")]);
              ("registrant", VDict [("name", VStr "Jane Roe");
                                    ("email", VStr "owner@example.com")]);
              ("technicalContact", VStr "n/a");
              ("administrativeContact", VDict [("name", VStr "Admin Team")])])
    = Ok (VDict [ ("registrantName", VStr "Jane Roe");
                  ("technicalContactName", VStr "");
                  ("administrativeContactName", VStr "Admin Team");
                  ("contactEmail", VStr "owner@example.com") ])).
  { refine (eq_trans (proj1 (extract_contact_information_spec _ [] [] [] VNone)) _).
    reflexivity. }
  split; [exact Hfull|]. split.
  - rewrite <- Hfull.
    apply (extract_contact_information_spec
             [("registryData",
               VDict [("registrant", VDict [("name", VStr "Registry Owner")]);
                      ("technicalContact", VDict [("name", VStr "Registry Tech")]);
                      ("contactEmail", VStr "registry@example.com")]);
              ("registrant", VDict [("name", VStr "Jane Roe");
                                    ("email", VStr "owner@example.com")]);
              ("technicalContact", VStr "n/a");
              ("administrativeContact", VDict [("name", VStr "Admin Team")])]
             [("registrant", VDict [("name", VStr "Jane Roe");
                                    ("email", VStr "owner@example.com")]);
              ("technicalContact", VStr "n/a");
              ("administrativeContact", VDict [("name", VStr "Admin Team")])]
             [] [] VNone).
    intros k Hk. unfold dict_get. cbn [lookup].
    destruct (String.eqb_spec "registryData" k) as [E|_]; [|reflexivity].
    now elim Hk.
  - destruct (extract_contact_information_spec
                [] [] [("registrant", VDict [("email", VStr "owner@example.com")])] []
                (VStr "hostmaster@example.com")) as (_ & _ & H).
    destruct (H eq_refl) as [_ (rn & tn & an & Hrun)].
    rewrite Hrun. revert Hrun. cbv. intros [= <- <- <-]. reflexivity.
Defined.

Example contact_without_sub_objects :
  extract_contact_information (VDict [("domainName", VStr "example.com")])
  = Ok (VDict [ ("registrantName", VStr "");
                ("technicalContactName", VStr "");
                ("administrativeContactName", VStr "");
                ("contactEmail", VStr "") ]).
Proof. reflexivity. Qed.

(** C5, as stated, fails: a truthy field of the wrong type is not degraded.
    A number under ["domainName"] and a list under the registrant's ["name"]
    reach the output unchanged. *)
Lemma malformed_field_not_degraded :
  let record := [("domainName", VInt 42);
                 ("registrant", VDict [("name", VList [VInt 1])])] in
  exists domain_info contact_info,
    extract_domain_information (VDict record) = Ok (VDict domain_info)
    /\ extract_contact_information (VDict record) = Ok (VDict contact_info)
    /\ is_str (dict_get record "domainName") = false
    /\ dict_get domain_info "domainName" = VInt 42
    /\ dict_get domain_info "domainName" <> VStr ""
    /\ dict_get domain_info "domainName" <> VNone
    /\ dict_get contact_info "registrantName" = VList [VInt 1]
    /\ dict_get contact_info "registrantName" <> VStr "".
Proof.
  simpl. eexists. eexists.
  split; [reflexivity|]. split; [reflexivity|].
  repeat split; discriminate.
Qed.

(** C5, amended.  For every raw record mapping both extractors return, and
    their outputs hold every DomainInfo and ContactInfo key.  Each output
    field is the first present (truthy) upstream value, passed through
    unchanged whatever its type, and the default (the empty string, [None]
    for estimatedDomainAge) only when no upstream value is present.  A field
    that is missing or falsy is not present; a contact sub-object, a
    ["registrar"] or a ["registryData"] that is not an object yields no
    field, and so does a ["nameServers"] that is not an object. *)
Theorem extractors_total
    (record o : list (string * value)) (k f : string) :
  exists dn rg cd ed age hn rn tn an ce,
    extract_domain_information (VDict record)
    = Ok (VDict [ ("domainName", dn); ("registrar", rg);
                  ("registrationDate", cd); ("expirationDate", ed);
                  ("estimatedDomainAge", age); ("hostnames", VStr hn) ])
    /\ extract_contact_information (VDict record)
       = Ok (VDict [ ("registrantName", rn); ("technicalContactName", tn);
                     ("administrativeContactName", an); ("contactEmail", ce) ])
    /\ dn = or_default (first_present record "domainName") (VStr "")
    /\ rg = or_default (first_present record "registrarName")
              (or_default (sub_field record "registrar" "name") (VStr ""))
    /\ cd = or_default (first_present record "createdDate") (VStr "")
    /\ ed = or_default (first_present record "expiresDate") (VStr "")
    /\ age = or_default (first_present record "estimatedDomainAge") VNone
    /\ hn = join ", " (map (fun h => truncate_text (VStr h) default_max_length)
                           (spec_names record))
    /\ rn = or_default (sub_field record "registrant" "name") (VStr "")
    /\ tn = or_default (sub_field record "technicalContact" "name") (VStr "")
    /\ an = or_default (sub_field record "administrativeContact" "name") (VStr "")
    /\ ce = or_default
              (if truthy (dict_get record "contactEmail")
               then Some (dict_get record "contactEmail")
               else sub_field record "registrant" "email") (VStr "")
    /\ (truthy (dict_get record k) = true ->
        first_present record k = Some (dict_get record k))
    /\ (truthy (dict_get record k) = false ->
        truthy (dict_get (registry_of record) k) = true ->
        first_present record k = Some (dict_get (registry_of record) k))
    /\ (truthy (dict_get record k) = false ->
        truthy (dict_get (registry_of record) k) = false ->
        first_present record k = None)
    /\ (dict_get record k = VDict o -> truthy (dict_get o f) = true ->
        sub_field record k f = Some (dict_get o f))
    /\ (dict_get record k = VDict o -> truthy (dict_get o f) = false ->
        sub_field record k f = None)
    /\ (is_dict (dict_get record k) = false -> sub_field record k f = None)
    /\ (is_dict (dict_get record "registryData") = false -> registry_of record = [])
    /\ (is_dict (dict_get record "nameServers") = false ->
        is_dict (dict_get record "registryData") = false -> hn = "").
Proof.
  exists (or_default (first_present record "domainName") (VStr "")),
         (or_default (first_present record "registrarName")
            (or_default (sub_field record "registrar" "name") (VStr ""))),
         (or_default (first_present record "createdDate") (VStr "")),
         (or_default (first_present record "expiresDate") (VStr "")),
         (or_default (first_present record "estimatedDomainAge") VNone),
         (join ", " (map (fun h => truncate_text (VStr h) default_max_length)
                         (spec_names record))),
         (or_default (sub_field record "registrant" "name") (VStr "")),
         (or_default (sub_field record "technicalContact" "name") (VStr "")),
         (or_default (sub_field record "administrativeContact" "name") (VStr "")),
         (or_default
            (if truthy (dict_get record "contactEmail")
             then Some (dict_get record "contactEmail")
             else sub_field record "registrant" "email") (VStr "")).
  split; [apply extract_domain_information_dict|].
  split.
  { rewrite extract_contact_information_dict.
    now destruct (truthy (dict_get record "contactEmail")). }
  do 10 (split; [reflexivity|]).
  unfold first_present, sub_field.
  split; [now intros ->|]. split; [now intros -> ->|]. split; [now intros -> ->|].
  split; [now intros -> ->|]. split; [now intros -> ->|].
  split; [now destruct (dict_get record k)|].
  split.
  - unfold registry_of. now destruct (dict_get record "registryData").
  - unfold spec_names, spec_host_names, registry_of.
    destruct (dict_get record "nameServers"); try discriminate;
      destruct (dict_get record "registryData"); try discriminate; reflexivity.
Qed.

Lemma extractors_total_witness :
  extract_domain_information
    (VDict [("domainName", VInt 42); ("createdDate", VStr "");
            ("estimatedDomainAge", VInt 0); ("registrar", VList []);
            ("nameServers", VInt 3);
            ("registryData", VDict [("createdDate", VStr "1995-08-14")])])
  = Ok (VDict [ ("domainName", VInt 42); ("registrar", VStr "");
                ("registrationDate", VStr "1995-08-14"); ("expirationDate", VStr "");
                ("estimatedDomainAge", VNone); ("hostnames", VStr "") ])
  /\ extract_contact_information
       (VDict [("registrant", VDict [("name", VList [VInt 1]); ("email", VStr "")]);
               ("technicalContact", VStr "John Doe");
               ("registryData", VStr "n/a")])
     = Ok (VDict [ ("registrantName", VList [VInt 1]);
                   ("technicalContactName", VStr "");
                   ("administrativeContactName", VStr "");
                   ("contactEmail", VStr "") ])
  /\ first_present [("domainName", VInt 42)] "domainName" = Some (VInt 42)
  /\ first_present
       [("createdDate", VStr "");
        ("registryData", VDict [("createdDate", VStr "1995-08-14")])] "createdDate"
     = Some (VStr "1995-08-14")
  /\ first_present [("estimatedDomainAge", VInt 0)] "estimatedDomainAge" = None
  /\ sub_field [("registrant", VDict [("name", VList [VInt 1])])] "registrant" "name"
     = Some (VList [VInt 1])
  /\ sub_field [("registrant", VDict [("name", VStr "")])] "registrant" "name" = None
  /\ sub_field [("technicalContact", VStr "John Doe")] "technicalContact" "name" = None
  /\ registry_of [("registryData", VStr "n/a")] = [].
Proof.
  split; [|split].
  - destruct (extractors_total
                [("domainName", VInt 42); ("createdDate", VStr "");
                 ("estimatedDomainAge", VInt 0); ("registrar", VList []);
                 ("nameServers", VInt 3);
                 ("registryData", VDict [("createdDate", VStr "1995-08-14")])]
                [] "" "")
      as (dn & rg & cd & ed & age & hn & rn & tn & an & ce & Hd & _
          & -> & -> & -> & -> & -> & -> & _).
    exact Hd.
  - destruct (extractors_total
                [("registrant", VDict [("name", VList [VInt 1]); ("email", VStr "")]);
                 ("technicalContact", VStr "John Doe");
                 ("registryData", VStr "n/a")]
                [] "" "")
      as (dn & rg & cd & ed & age & hn & rn & tn & an & ce & _ & Hc
          & _ & _ & _ & _ & _ & _ & -> & -> & -> & -> & _).
    exact Hc.
  - repeat match goal with |- _ /\ _ => split end.
    + destruct (extractors_total [("domainName", VInt 42)] [] "domainName" "")
        as (? & ? & ? & ? & ? & ? & ? & ? & ? & ? & _ & _ & _ & _ & _ & _ & _ & _
            & _ & _ & _ & _ & H & _).
      apply H. reflexivity.
    + destruct (extractors_total
                  [("createdDate", VStr "");
                   ("registryData", VDict [("createdDate", VStr "1995-08-14")])]
                  [] "createdDate" "")
        as (? & ? & ? & ? & ? & ? & ? & ? & ? & ? & _ & _ & _ & _ & _ & _ & _ & _
            & _ & _ & _ & _ & _ & H & _).
      apply H; reflexivity.
    + destruct (extractors_total [("estimatedDomainAge", VInt 0)] []
                  "estimatedDomainAge" "")
        as (? & ? & ? & ? & ? & ? & ? & ? & ? & ? & _ & _ & _ & _ & _ & _ & _ & _
            & _ & _ & _ & _ & _ & _ & H & _).
      apply H; reflexivity.
    + destruct (extractors_total [("registrant", VDict [("name", VList [VInt 1])])]
                  [("name", VList [VInt 1])] "registrant" "name")
        as (? & ? & ? & ? & ? & ? & ? & ? & ? & ? & _ & _ & _ & _ & _ & _ & _ & _
            & _ & _ & _ & _ & _ & _ & _ & H & _).
      apply H; reflexivity.
    + destruct (extractors_total [("registrant", VDict [("name", VStr "")])]
                  [("name", VStr "")] "registrant" "name")
        as (? & ? & ? & ? & ? & ? & ? & ? & ? & ? & _ & _ & _ & _ & _ & _ & _ & _
            & _ & _ & _ & _ & _ & _ & _ & _ & H & _).
      apply H; reflexivity.
    + destruct (extractors_total [("technicalContact", VStr "John Doe")] []
                  "technicalContact" "name")
        as (? & ? & ? & ? & ? & ? & ? & ? & ? & ? & _ & _ & _ & _ & _ & _ & _ & _
            & _ & _ & _ & _ & _ & _ & _ & _ & _ & H & _).
      apply H; reflexivity.
    + destruct (extractors_total [("registryData", VStr "n/a")] [] "" "")
        as (? & ? & ? & ? & ? & ? & ? & ? & ? & ? & _ & _ & _ & _ & _ & _ & _ & _
            & _ & _ & _ & _ & _ & _ & _ & _ & _ & _ & H & _).
      apply H; reflexivity.
Defined.

(* ================================================================= *)
(** ** Further properties: truncation *)

Section Truncation.

Implicit Types (s : string) (m : Z).

Lemma slice_to_nonneg s m :
  (0 <= m)%Z -> slice_to s m = take (Z.to_nat m) s.
Proof.
  intros H. rewrite <- (Z2Nat.id m H) at 1. apply slice_to_take.
Qed.

Lemma truncate_text_fits s m :
  (len s <= m)%Z -> truncate_text (VStr s) m = s.
Proof.
  intros H. unfold truncate_text.
  destruct (Z.leb_spec (len s) m); [reflexivity | lia].
Qed.

Lemma truncate_text_cut s m :
  (m < len s)%Z -> truncate_text (VStr s) m = slice_to s (m - 3) ++ "...".
Proof.
  intros H. unfold truncate_text.
  destruct (Z.leb_spec (len s) m); [lia | reflexivity].
Qed.

Lemma len_append s t : len (s ++ t) = (len s + len t)%Z.
Proof. unfold len. rewrite length_append. lia. Qed.

Lemma len_take (n : nat) s : len (take n s) = Z.min (Z.of_nat n) (len s).
Proof. unfold len. rewrite length_take. lia. Qed.

(** X1.  With room for the marker ([max_length] at least 3) the result never
    exceeds [max_length]; it is the input itself, or a proper prefix of it
    followed by the marker and then exactly [max_length] long. *)
Theorem truncate_text_within s m :
  (3 <= m)%Z ->
  (len (truncate_text (VStr s) m) <= m)%Z
  /\ (truncate_text (VStr s) m = s
      \/ (m < len s)%Z
         /\ truncate_text (VStr s) m = take (Z.to_nat (m - 3)) s ++ "..."
         /\ len (truncate_text (VStr s) m) = m).
Proof.
  intros Hm. destruct (Z.le_gt_cases (len s) m) as [Hle|Hgt].
  - rewrite (truncate_text_fits s m Hle). split; [exact Hle | now left].
  - rewrite (truncate_text_cut s m Hgt), slice_to_nonneg by lia.
    assert (Hlen : len (take (Z.to_nat (m - 3)) s ++ "...") = m).
    { rewrite len_append, len_take. change (len "...") with 3%Z. lia. }
    split; [lia|]. right. now repeat split.
Qed.

Lemma truncate_text_within_witness :
  truncate_text (VStr "whois.example.org") 10 = "whois.e...".
Proof.
  destruct (truncate_text_within "whois.example.org" 10) as [_ [H|(_ & H & _)]].
  - lia.
  - discriminate H.
  - exact H.
Defined.

Lemma truncate_text_twice s m :
  (3 <= m)%Z ->
  truncate_text (VStr (truncate_text (VStr s) m)) m = truncate_text (VStr s) m.
Proof.
  intros Hm. apply truncate_text_fits.
  destruct (Z.le_gt_cases (len s) m) as [Hle|Hgt].
  - now rewrite (truncate_text_fits s m Hle).
  - rewrite (truncate_text_cut s m Hgt), slice_to_nonneg by lia.
    rewrite len_append, len_take. change (len "...") with 3%Z. lia.
Qed.

(** X2.  Truncating twice is truncating once, for [max_length] at least 3, and
    truncating anything that is not a string twice gives the empty string
    both times. *)
Theorem truncate_text_idempotent (v : value) m :
  (3 <= m)%Z ->
  truncate_text (VStr (truncate_text v m)) m = truncate_text v m.
Proof.
  intros Hm. destruct v; try (apply truncate_text_fits; unfold len; simpl; lia).
  now apply truncate_text_twice.
Qed.

Lemma truncate_text_idempotent_witness :
  truncate_text (VStr (truncate_text (VStr "abcdefghijklmnopqrstuvwxyz0123") 25)) 25
  = truncate_text (VStr "abcdefghijklmnopqrstuvwxyz0123") 25.
Proof. apply (truncate_text_idempotent (VStr "abcdefghijklmnopqrstuvwxyz0123")). lia. Defined.

(** X3.  Below 3 there is no room for the marker: every string longer than
    [max_length] comes out longer than [max_length], the slice stop
    [max_length - 3] being negative and counted from the end. *)
Theorem truncate_text_small_max_length s m :
  (m < 3)%Z -> (m < len s)%Z ->
  len (truncate_text (VStr s) m) = (Z.max 0 (len s + m - 3) + 3)%Z
  /\ (m < len (truncate_text (VStr s) m))%Z.
Proof.
  intros Hm Hgt. rewrite (truncate_text_cut s m Hgt).
  unfold slice_to. destruct (Z.ltb_spec (m - 3) 0); [|lia].
  rewrite len_append, len_take. change (len "...") with 3%Z.
  assert (0 <= len s)%Z by (unfold len; lia).
  rewrite Z2Nat.id by lia. split; lia.
Qed.

Lemma truncate_text_small_max_length_witness :
  len (truncate_text (VStr "ab") 1) = 3%Z.
Proof.
  destruct (truncate_text_small_max_length "ab" 1) as [H _].
  - lia.
  - unfold len. simpl. lia.
  - exact H.
Defined.

End Truncation.

(* ================================================================= *)
(** ** Further properties: the text forms of the host names *)

Section TextForms.

Implicit Types (s n : string) (names : list string).

Lemma spec_split_fragments s :
  spec_split s = filter nonempty (fragments is_delimiter s).
Proof.
  unfold spec_split.
  assert (H : Forall (fun f => all_chars (fun c => negb (isspace c)) f = true)
                     (filter (fun f => negb (is_empty f)) (fragments is_delimiter s))).
  { apply Forall_filter_keeps, fragments_no_space. }
  change (fun f => negb (is_empty f)) with nonempty in *.
  induction H as [|f fs Hf _ IH]; simpl; [reflexivity|].
  now rewrite (strip_clean f Hf), IH.
Qed.

Lemma split_text_all_clean s :
  Forall (fun n => clean_name n = true) (split_text s).
Proof.
  rewrite split_text_spec, spec_split_fragments.
  pose proof (fragments_clean is_delimiter s) as H.
  induction H as [|f fs Hf _ IH]; simpl; [constructor|].
  destruct (nonempty f) eqn:E; [|exact IH].
  constructor; [|exact IH]. unfold clean_name. now rewrite E, Hf.
Qed.

(** X4.  Every name read from a text form is non-empty and holds neither a comma
    nor a whitespace character. *)
Theorem split_text_clean s n :
  In n (split_text s) ->
  n <> ""
  /\ all_chars (fun c => negb (Ascii.eqb c ",") && negb (isspace c)) n = true.
Proof.
  intros Hin. pose proof (split_text_all_clean s) as H.
  rewrite Forall_forall in H. specialize (H n Hin).
  apply andb_true_iff in H as [Hne Hc]. split.
  - intros ->. discriminate.
  - clear Hne Hin. induction n as [|c n IH]; [reflexivity|].
    simpl in *. apply andb_true_iff in Hc as [Hc Hn].
    rewrite (IH Hn), andb_true_r. unfold is_delimiter in Hc.
    apply negb_true_iff, orb_false_iff in Hc as [-> ->]. reflexivity.
Qed.

Lemma split_text_clean_witness :
  "b.example.org" <> ""
  /\ all_chars (fun c => negb (Ascii.eqb c ",") && negb (isspace c)) "b.example.org" = true.
Proof.
  apply (split_text_clean " a.example.org ,, b.example.org,"). simpl. auto.
Defined.

Lemma fragments_app_clean (delim : ascii -> bool) n s :
  all_chars (fun c => negb (delim c)) n = true ->
  fragments delim (n ++ s) = glue n (fragments delim s).
Proof.
  induction n as [|c n IH]; simpl; intros H.
  - now rewrite glue_empty.
  - apply andb_true_iff in H as [Hc Hn]. apply negb_true_iff in Hc.
    rewrite Hc, (IH Hn).
    now destruct (fragments_cons delim s) as [f [fs ->]].
Qed.

Lemma filter_fragments_join names :
  Forall (fun n => clean_name n = true) names ->
  filter nonempty (fragments is_delimiter (join ", " names)) = names.
Proof.
  induction 1 as [|n names Hn Hnames IH]; [reflexivity|].
  apply andb_true_iff in Hn as [Hne Hc].
  destruct names as [|n' names'].
  - simpl. rewrite <- (append_empty n) at 1.
    rewrite (fragments_app_clean _ _ _ Hc). simpl.
    now rewrite append_empty, Hne.
  - change (join ", " (n :: n' :: names'))
      with (n ++ ", " ++ join ", " (n' :: names')).
    rewrite (fragments_app_clean _ _ _ Hc).
    change (", " ++ join ", " (n' :: names'))
      with (String "," (String " " (join ", " (n' :: names')))).
    cbn [fragments]. change (is_delimiter ",") with true.
    change (is_delimiter " ") with true. cbn [glue filter].
    rewrite append_empty, Hne. change (nonempty "") with false.
    cbn iota. now rewrite IH.
Qed.

Lemma split_text_of_join names :
  Forall (fun n => clean_name n = true) names ->
  split_text (join ", " names) = names.
Proof.
  intros H.
  now rewrite split_text_spec, spec_split_fragments, filter_fragments_join.
Qed.

End TextForms.

(* ================================================================= *)
(** ** Further properties: the normaliser and the extractors *)

Section NormaliserProperties.

Implicit Types (s n text out : string) (names : list string).

Lemma all_chars_append (p : ascii -> bool) s t :
  all_chars p (s ++ t) = all_chars p s && all_chars p t.
Proof.
  induction s as [|c s IH]; simpl; [reflexivity|].
  now rewrite IH, andb_assoc.
Qed.

Lemma all_chars_take (p : ascii -> bool) (k : nat) s :
  all_chars p s = true -> all_chars p (take k s) = true.
Proof.
  revert s; induction k as [|k IH]; intros [|c s]; simpl; try reflexivity.
  intros H. apply andb_true_iff in H as [-> Hs]. now rewrite (IH s Hs).
Qed.

Lemma truncate_text_clean n :
  clean_name n = true ->
  clean_name (truncate_text (VStr n) default_max_length) = true.
Proof.
  intros Hn. destruct (Nat.le_gt_cases (String.length n) 25) as [Hle|Hgt].
  - now rewrite truncate_text_short.
  - rewrite truncate_text_long by assumption.
    apply andb_true_iff in Hn as [_ Hc]. unfold clean_name.
    rewrite all_chars_append, (all_chars_take _ 22 n Hc).
    destruct n as [|c n]; [simpl in Hgt; lia | reflexivity].
Qed.

Lemma spec_names_text text :
  spec_names [("nameServers", VDict [("hostNames", VStr text)])] = split_text text.
Proof.
  assert (H1 : spec_host_names [("nameServers", VDict [("hostNames", VStr text)])]
               = spec_split text) by reflexivity.
  assert (H2 : spec_host_names
                 (registry_of [("nameServers", VDict [("hostNames", VStr text)])])
               = []) by reflexivity.
  rewrite split_text_spec. unfold spec_names. rewrite H1, H2.
  now destruct (spec_split text).
Qed.

(** X5.  Round trip: names that are non-empty, free of commas and whitespace and
    at most 25 characters long, joined with [", "] and given as the string
    form, are read back one by one and returned as the same string. *)
Theorem normalize_hostnames_round_trip names :
  Forall (fun n => clean_name n = true) names ->
  Forall (fun n => String.length n <= 25) names ->
  split_text (join ", " names) = names
  /\ normalize_hostnames
       (VDict [("nameServers", VDict [("hostNames", VStr (join ", " names))])])
     = Ok (join ", " names).
Proof.
  intros Hclean Hshort. split; [now apply split_text_of_join|].
  rewrite normalize_hostnames_dict, spec_names_text, split_text_of_join by assumption.
  do 2 f_equal. induction Hshort as [|n names Hn _ IH]; [reflexivity|].
  inversion Hclean; subst. cbn [map]. rewrite truncate_text_short by assumption.
  now rewrite IH.
Qed.

Lemma normalize_hostnames_round_trip_witness :
  normalize_hostnames
    (VDict [("nameServers",
             VDict [("hostNames", VStr (join ", " ["ns1.example.com"; "ns2.example.com"]))])])
  = Ok "ns1.example.com, ns2.example.com".
Proof.
  apply (normalize_hostnames_round_trip ["ns1.example.com"; "ns2.example.com"]).
  - repeat constructor.
  - repeat constructor; simpl; lia.
Defined.

Lemma Ok_injective {A} (a b : A) : Ok a = Ok b -> a = b.
Proof. now intros [=]. Qed.

(** X6.  Normalising is idempotent on the string form: the output of a record
    whose host names are a delimited string, given back as that string, is
    returned unchanged. *)
Theorem normalize_hostnames_idempotent text out :
  normalize_hostnames (VDict [("nameServers", VDict [("hostNames", VStr text)])]) = Ok out ->
  normalize_hostnames (VDict [("nameServers", VDict [("hostNames", VStr out)])]) = Ok out.
Proof.
  rewrite !normalize_hostnames_dict, !spec_names_text.
  intros H. apply Ok_injective in H. subst out.
  set (truncated := map (fun h => truncate_text (VStr h) default_max_length)
                        (split_text text)).
  assert (Hclean : Forall (fun n => clean_name n = true) truncated).
  { apply Forall_map. eapply Forall_impl; [|apply split_text_all_clean].
    intros n. apply truncate_text_clean. }
  rewrite (split_text_of_join truncated Hclean). do 2 f_equal.
  unfold truncated. rewrite map_map. apply map_ext. intros h.
  apply (truncate_text_twice h 25). lia.
Qed.

Lemma normalize_hostnames_idempotent_witness :
  normalize_hostnames
    (VDict [("nameServers",
             VDict [("hostNames", VStr "a-rather-long-name-server.example.org, ns2.example.org")])])
  = Ok "a-rather-long-name-ser..., ns2.example.org"
  /\ normalize_hostnames
       (VDict [("nameServers",
                VDict [("hostNames", VStr "a-rather-long-name-ser..., ns2.example.org")])])
     = Ok "a-rather-long-name-ser..., ns2.example.org".
Proof.
  split; [reflexivity|].
  apply (normalize_hostnames_idempotent
           "a-rather-long-name-server.example.org, ns2.example.org").
  reflexivity.
Defined.

Lemma non_mapping_raises (record : value) :
  is_dict record = false ->
  normalize_hostnames record = Raise (no_attribute record "get")
  /\ extract_domain_information record = Raise (no_attribute record "get")
  /\ extract_contact_information record = Raise (no_attribute record "get").
Proof.
  destruct record as [ |[]|[| |]|[[] ?]|[|]|[|]|?]; try discriminate;
    intros _; repeat split; reflexivity.
Qed.

(** X7.  A record that is not a mapping makes the normaliser and both extractors
    raise [AttributeError], also when it is falsy ([None], [""], [0], [[]]):
    only [extract_hostnames] returns early on a falsy container. *)
Theorem non_mapping_record_raises (record : value) :
  is_dict record = false ->
  normalize_hostnames record = Raise (no_attribute record "get")
  /\ extract_domain_information record = Raise (no_attribute record "get")
  /\ extract_contact_information record = Raise (no_attribute record "get")
  /\ extract_hostnames record
     = if truthy record then Raise (no_attribute record "get") else Ok [].
Proof.
  intros H. destruct (non_mapping_raises record H) as (H1 & H2 & H3).
  repeat split; try assumption.
  destruct record as [ |[]|[| |]|[[] ?]|[|]|[|]|?]; try discriminate; reflexivity.
Qed.

Lemma non_mapping_record_raises_witness :
  normalize_hostnames VNone
  = Raise (AttributeError "'NoneType' object has no attribute 'get'")
  /\ extract_contact_information (VStr "No match for domain")
     = Raise (AttributeError "'str' object has no attribute 'get'").
Proof.
  split.
  - apply (non_mapping_record_raises VNone). reflexivity.
  - apply (non_mapping_record_raises (VStr "No match for domain")). reflexivity.
Defined.

(** X8.  [pick] returns the first truthy value among the candidates, read key by
    key and for each key on the record before the registry data; it returns
    [None] when every candidate is falsy, never a falsy candidate itself. *)
Theorem pick_first_truthy (record registry_data : list (string * value))
    (keys : list string) :
  pick (VDict record) (VDict registry_data) keys
  = Ok (first_truthy (candidates record registry_data keys)).
Proof.
  induction keys as [|k keys IH]; [reflexivity|].
  cbn [pick get bind candidates flat_map app first_truthy].
  destruct (truthy (dict_get record k)); [reflexivity|].
  destruct (truthy (dict_get registry_data k)); [reflexivity|].
  exact IH.
Qed.

End NormaliserProperties.

(* ================================================================= *)
(** ** Further properties: the logging sink *)

Section SinkProperties.

Variable MYSQL_AVAILABLE : bool.
Variable int_of_str : string -> result Z.
Variable environ : list (string * string).
Variable fails : list Sink.op -> Sink.op -> option exn.

Local Abbreviation get_db_config :=
  (Sink.get_db_config MYSQL_AVAILABLE int_of_str environ).
Local Abbreviation get_db_connection :=
  (Sink.get_db_connection MYSQL_AVAILABLE int_of_str environ fails).
Local Abbreviation sink_log_lookup :=
  (Sink.log_lookup MYSQL_AVAILABLE int_of_str environ fails).
Local Abbreviation init_db :=
  (Sink.init_db MYSQL_AVAILABLE int_of_str environ fails).

Lemma get_env_lookup (key : string) :
  get_env environ key None = lookup environ key.
Proof. unfold get_env. now destruct (lookup environ key). Qed.

Lemma get_env_port :
  get_env environ "MYSQL_PORT" (Some "3306")
  = Some (match lookup environ "MYSQL_PORT" with Some p => p | None => "3306" end).
Proof. unfold get_env. now destruct (lookup environ "MYSQL_PORT"). Qed.

(** X16.  With the driver available and a readable port, there is a configuration
    exactly when host, user and database are all set and non-empty; the
    password may be missing or empty; the port is 3306 when [MYSQL_PORT] is
    empty and [int("3306")] when it is unset.  Without the driver there is
    never a configuration. *)
Theorem get_db_config_result (port : Z) :
  match lookup environ "MYSQL_PORT" with
  | Some p => if is_empty p then Ok 3306%Z else int_of_str p
  | None => int_of_str "3306"
  end = Ok port ->
  get_db_config
  = Ok (match lookup environ "MYSQL_HOST", lookup environ "MYSQL_USER",
              lookup environ "MYSQL_DB" with
        | Some h, Some u, Some d =>
            if MYSQL_AVAILABLE && nonempty h && nonempty u && nonempty d
            then Some {| Sink.host := h; Sink.user := u;
                         Sink.passwd := match lookup environ "MYSQL_PASSWORD" with
                                        | Some pw => pw
                                        | None => ""
                                        end;
                         Sink.db := d; Sink.port := port;
                         Sink.charset := "utf8mb4" |}
            else None
        | _, _, _ => None
        end).
Proof.
  intros Hport. unfold Sink.get_db_config.
  destruct MYSQL_AVAILABLE; cbn [negb andb].
  2:{ now destruct (lookup environ "MYSQL_HOST"), (lookup environ "MYSQL_USER"),
                   (lookup environ "MYSQL_DB"). }
  rewrite !get_env_lookup, get_env_port.
  assert (Hp : (if is_empty (match lookup environ "MYSQL_PORT" with
                              | Some p => p
                              | None => "3306"
                              end)
                then Ok 3306%Z
                else int_of_str (match lookup environ "MYSQL_PORT" with
                                 | Some p => p
                                 | None => "3306"
                                 end)) = Ok port).
  { now destruct (lookup environ "MYSQL_PORT"). }
  rewrite Hp. cbn [bind].
  destruct (lookup environ "MYSQL_HOST") as [h|]; [|reflexivity].
  destruct (lookup environ "MYSQL_USER") as [u|]; [|reflexivity].
  destruct (lookup environ "MYSQL_DB") as [d|]; [|reflexivity].
  cbn [forallb Sink.is_set]. unfold nonempty.
  destruct (is_empty h), (is_empty u), (is_empty d); reflexivity.
Qed.

(** X17.  The port is read before the other settings are checked: with the driver
    available, a [MYSQL_PORT] that [int] rejects makes [get_db_config] raise,
    whether or not host, user and database are set. *)
Theorem get_db_config_bad_port (p : string) (e : exn) :
  MYSQL_AVAILABLE = true ->
  lookup environ "MYSQL_PORT" = Some p ->
  is_empty p = false ->
  int_of_str p = Raise e ->
  get_db_config = Raise e.
Proof.
  intros Ha Hp Hne He. unfold Sink.get_db_config.
  rewrite Ha, get_env_port, Hp, Hne, He. reflexivity.
Qed.

Lemma execute_and_close_trace (s : Sink.statement) (t : list Sink.op) :
  exists body,
    Sink.execute_and_close fails s t = (Ok tt, (t ++ body ++ [Sink.Close])%list)
    /\ In body [ [Sink.Cursor];
                 [Sink.Cursor; Sink.Execute s];
                 [Sink.Cursor; Sink.Execute s; Sink.Commit] ]
    /\ ((forall t' o, fails t' o = None) ->
        body = [Sink.Cursor; Sink.Execute s; Sink.Commit]).
Proof.
  unfold Sink.execute_and_close, Sink.bindD, Sink.perform.
  destruct (fails t Sink.Cursor) eqn:E1.
  { exists [Sink.Cursor]. rewrite <- !app_assoc.
    split; [reflexivity|]. split; [simpl; auto|].
    intros H. rewrite H in E1. discriminate. }
  destruct (fails (t ++ [Sink.Cursor]) (Sink.Execute s)) eqn:E2.
  { exists [Sink.Cursor; Sink.Execute s]. rewrite <- !app_assoc.
    split; [reflexivity|]. split; [simpl; auto|].
    intros H. rewrite H in E2. discriminate. }
  exists [Sink.Cursor; Sink.Execute s; Sink.Commit].
  destruct (fails ((t ++ [Sink.Cursor]) ++ [Sink.Execute s]) Sink.Commit);
    rewrite <- !app_assoc; (split; [reflexivity|]); (split; [simpl; auto|]);
    reflexivity.
Qed.

Lemma connected_run (s : Sink.statement) (t : list Sink.op)
    (cfg_opt : option Sink.db_config) :
  get_db_config = Ok cfg_opt ->
  exists ops,
    Sink.bindD get_db_connection
      (fun conn =>
         match conn with
         | None => fun t => (Ok tt, t)
         | Some _ => Sink.execute_and_close fails s
         end) t = (Ok tt, (t ++ ops)%list)
    /\ match cfg_opt with
       | None => ops = []
       | Some cfg =>
           (fails t (Sink.Connect cfg) <> None /\ ops = [Sink.Connect cfg])
           \/ exists body,
                ops = (Sink.Connect cfg :: body ++ [Sink.Close])%list
                /\ In body [ [Sink.Cursor];
                             [Sink.Cursor; Sink.Execute s];
                             [Sink.Cursor; Sink.Execute s; Sink.Commit] ]
                /\ ((forall t' o, fails t' o = None) ->
                    body = [Sink.Cursor; Sink.Execute s; Sink.Commit])
       end.
Proof.
  intros Hcfg. unfold Sink.bindD, Sink.get_db_connection. rewrite Hcfg.
  destruct cfg_opt as [cfg|].
  2:{ exists []. now rewrite app_nil_r. }
  unfold Sink.perform at 1.
  destruct (fails t (Sink.Connect cfg)) eqn:E.
  - exists [Sink.Connect cfg]. split; [reflexivity|]. left. now split.
  - destruct (execute_and_close_trace s (t ++ [Sink.Connect cfg]))
      as (body & -> & Hin & Hall).
    exists (Sink.Connect cfg :: body ++ [Sink.Close])%list.
    rewrite <- app_assoc. split; [reflexivity|]. right. now exists body.
Qed.

(** X18.  Once the configuration is read, [log_lookup] never raises, whatever the
    driver does: with no configuration it touches nothing; a failed connect
    ends the call; otherwise it asks for a cursor, executes at most the one
    [INSERT] of its arguments (success as 0 or 1, an empty registrar as
    [None]), commits at most once and always closes the connection last.
    When no driver operation fails the insert is executed and committed. *)
Theorem log_lookup_contained
    (cfg_opt : option Sink.db_config) (domain info_type : value)
    (http_status : Z) (success : bool) (registrar : value) (t : list Sink.op) :
  get_db_config = Ok cfg_opt ->
  let insert :=
    Sink.Execute
      (Sink.Insert {| Sink.r_domain := domain; Sink.r_info_type := info_type;
                      Sink.r_http_status := http_status;
                      Sink.r_success := if success then 1%Z else 0%Z;
                      Sink.r_registrar := if truthy registrar then registrar else VNone |}) in
  exists ops,
    sink_log_lookup domain info_type http_status success registrar t
    = (Ok tt, (t ++ ops)%list)
    /\ match cfg_opt with
       | None => ops = []
       | Some cfg =>
           (fails t (Sink.Connect cfg) <> None /\ ops = [Sink.Connect cfg])
           \/ exists body,
                ops = (Sink.Connect cfg :: body ++ [Sink.Close])%list
                /\ In body [ [Sink.Cursor];
                             [Sink.Cursor; insert];
                             [Sink.Cursor; insert; Sink.Commit] ]
                /\ ((forall t' o, fails t' o = None) ->
                    body = [Sink.Cursor; insert; Sink.Commit])
       end.
Proof.
  intros Hcfg insert. unfold Sink.log_lookup.
  exact (connected_run _ t cfg_opt Hcfg).
Qed.

(** X19.  [init_db] behaves alike with the one [CREATE TABLE]: it never raises
    once the configuration is read, executes no other statement, and closes
    the connection whenever it got one. *)
Theorem init_db_contained (cfg_opt : option Sink.db_config) (t : list Sink.op) :
  get_db_config = Ok cfg_opt ->
  exists ops,
    init_db t = (Ok tt, (t ++ ops)%list)
    /\ match cfg_opt with
       | None => ops = []
       | Some cfg =>
           (fails t (Sink.Connect cfg) <> None /\ ops = [Sink.Connect cfg])
           \/ exists body,
                ops = (Sink.Connect cfg :: body ++ [Sink.Close])%list
                /\ In body [ [Sink.Cursor];
                             [Sink.Cursor; Sink.Execute Sink.CreateTable];
                             [Sink.Cursor; Sink.Execute Sink.CreateTable; Sink.Commit] ]
                /\ ((forall t' o, fails t' o = None) ->
                    body = [Sink.Cursor; Sink.Execute Sink.CreateTable; Sink.Commit])
       end.
Proof.
  intros Hcfg. unfold Sink.init_db. exact (connected_run _ t cfg_opt Hcfg).
Qed.

(** X20.  Reading the configuration is not guarded: when [get_db_config] raises
    (a [MYSQL_PORT] that is not a number), [log_lookup] and [init_db] raise
    the same exception before any driver operation. *)
Theorem unreadable_config_propagates
    (e : exn) (domain info_type : value) (http_status : Z) (success : bool)
    (registrar : value) (t : list Sink.op) :
  get_db_config = Raise e ->
  sink_log_lookup domain info_type http_status success registrar t = (Raise e, t)
  /\ init_db t = (Raise e, t).
Proof.
  intros Hcfg.
  unfold Sink.log_lookup, Sink.init_db, Sink.bindD, Sink.get_db_connection.
  now rewrite Hcfg.
Qed.

(** X21.  Without the driver the sink is switched off whatever the environment
    holds: no configuration is read, not even the port, and [log_lookup] and
    [init_db] return without a driver operation. *)
Theorem sink_disabled
    (domain info_type : value) (http_status : Z) (success : bool)
    (registrar : value) (t : list Sink.op) :
  MYSQL_AVAILABLE = false ->
  get_db_config = Ok None
  /\ sink_log_lookup domain info_type http_status success registrar t = (Ok tt, t)
  /\ init_db t = (Ok tt, t).
Proof.
  intros Ha.
  unfold Sink.log_lookup, Sink.init_db, Sink.bindD, Sink.get_db_connection,
    Sink.get_db_config.
  now rewrite Ha.
Qed.

End SinkProperties.

Lemma get_db_config_result_witness :
  Sink.get_db_config true (fun _ => Ok 3307%Z)
    [("MYSQL_HOST", "db.internal"); ("MYSQL_USER", "whois");
     ("MYSQL_DB", "lookups"); ("MYSQL_PORT", "3307")]
  = Ok (Some {| Sink.host := "db.internal"; Sink.user := "whois";
                Sink.passwd := ""; Sink.db := "lookups"; Sink.port := 3307;
                Sink.charset := "utf8mb4" |})
  /\ Sink.get_db_config true (fun _ => Ok 3307%Z)
       [("MYSQL_HOST", "db.internal"); ("MYSQL_USER", "");
        ("MYSQL_DB", "lookups"); ("MYSQL_PORT", "")]
     = Ok None.
Proof.
  split.
  - apply (get_db_config_result true (fun _ => Ok 3307%Z)
             [("MYSQL_HOST", "db.internal"); ("MYSQL_USER", "whois");
              ("MYSQL_DB", "lookups"); ("MYSQL_PORT", "3307")] 3307%Z).
    reflexivity.
  - apply (get_db_config_result true (fun _ => Ok 3307%Z)
             [("MYSQL_HOST", "db.internal"); ("MYSQL_USER", "");
              ("MYSQL_DB", "lookups"); ("MYSQL_PORT", "")] 3306%Z).
    reflexivity.
Defined.

Lemma get_db_config_bad_port_witness :
  Sink.get_db_config true
    (fun s => Raise (OtherError ("invalid literal for int() with base 10: " ++ s)))
    [("MYSQL_PORT", "default")]
  = Raise (OtherError "invalid literal for int() with base 10: default").
Proof.
  apply (get_db_config_bad_port true
           (fun s => Raise (OtherError ("invalid literal for int() with base 10: " ++ s)))
           [("MYSQL_PORT", "default")] "default"); reflexivity.
Defined.

Lemma log_lookup_contained_witness :
  let environ := [("MYSQL_HOST", "db.internal"); ("MYSQL_USER", "whois");
                  ("MYSQL_DB", "lookups")] in
  let cfg := {| Sink.host := "db.internal"; Sink.user := "whois";
                Sink.passwd := ""; Sink.db := "lookups"; Sink.port := 3306;
                Sink.charset := "utf8mb4" |} in
  Sink.log_lookup true (fun _ => Ok 3306%Z) environ (fun _ _ => None)
    (VStr "example.com") (VStr "domain") 200 true (VStr "") []
  = (Ok tt,
     [ Sink.Connect cfg; Sink.Cursor;
       Sink.Execute
         (Sink.Insert {| Sink.r_domain := VStr "example.com";
                         Sink.r_info_type := VStr "domain";
                         Sink.r_http_status := 200; Sink.r_success := 1;
                         Sink.r_registrar := VNone |});
       Sink.Commit; Sink.Close ]).
Proof.
  intros environ cfg.
  destruct (log_lookup_contained true (fun _ => Ok 3306%Z) environ (fun _ _ => None)
              (Some cfg) (VStr "example.com") (VStr "domain") 200 true (VStr "") []
              eq_refl)
    as (ops & Hrun & [[Hfail _] | (body & Hops & _ & Hall)]).
  - now elim Hfail.
  - rewrite Hrun, Hops, (Hall (fun _ _ => eq_refl)). reflexivity.
Defined.

Lemma init_db_contained_witness :
  let environ := [("MYSQL_HOST", "db.internal"); ("MYSQL_USER", "whois");
                  ("MYSQL_DB", "lookups")] in
  let cfg := {| Sink.host := "db.internal"; Sink.user := "whois";
                Sink.passwd := ""; Sink.db := "lookups"; Sink.port := 3306;
                Sink.charset := "utf8mb4" |} in
  Sink.init_db true (fun _ => Ok 3306%Z) environ (fun _ _ => None) []
  = (Ok tt,
     [ Sink.Connect cfg; Sink.Cursor; Sink.Execute Sink.CreateTable;
       Sink.Commit; Sink.Close ]).
Proof.
  intros environ cfg.
  destruct (init_db_contained true (fun _ => Ok 3306%Z) environ (fun _ _ => None)
              (Some cfg) [] eq_refl)
    as (ops & Hrun & [[Hfail _] | (body & Hops & _ & Hall)]).
  - now elim Hfail.
  - rewrite Hrun, Hops, (Hall (fun _ _ => eq_refl)). reflexivity.
Defined.

Lemma unreadable_config_propagates_witness :
  Sink.log_lookup true (fun _ => Raise (OtherError "invalid literal for int()"))
    [("MYSQL_PORT", "default")] (fun _ _ => None)
    (VStr "example.com") (VStr "domain") 200 true VNone []
  = (Raise (OtherError "invalid literal for int()"), []).
Proof.
  apply (unreadable_config_propagates true
           (fun _ => Raise (OtherError "invalid literal for int()"))
           [("MYSQL_PORT", "default")] (fun _ _ => None)
           (OtherError "invalid literal for int()")
           (VStr "example.com") (VStr "domain") 200 true VNone []).
  reflexivity.
Defined.

Lemma sink_disabled_witness :
  Sink.log_lookup false (fun _ => Raise (OtherError "invalid literal for int()"))
    [("MYSQL_HOST", "db.internal"); ("MYSQL_USER", "whois");
     ("MYSQL_DB", "lookups"); ("MYSQL_PORT", "default")] (fun _ _ => None)
    (VStr "example.com") (VStr "domain") 200 true VNone []
  = (Ok tt, []).
Proof.
  apply (sink_disabled false (fun _ => Raise (OtherError "invalid literal for int()"))
           [("MYSQL_HOST", "db.internal"); ("MYSQL_USER", "whois");
            ("MYSQL_DB", "lookups"); ("MYSQL_PORT", "default")] (fun _ _ => None)
           (VStr "example.com") (VStr "domain") 200 true VNone []).
  reflexivity.
Defined.
(* ================================================================= *)
(** ** The orchestrator *)

Section Orchestrator.

Variable MYSQL_AVAILABLE : bool.
Variable int_of_str : string -> result Z.
Variable environ : list (string * string).
Variable fails : list Sink.op -> Sink.op -> option exn.
Variable upstream : list (string * string) -> result response.
Variable req : request.

Local Abbreviation lookup_run :=
  (whois_lookup MYSQL_AVAILABLE int_of_str environ fails upstream req).
Local Abbreviation sink_config :=
  (Sink.get_db_config MYSQL_AVAILABLE int_of_str environ).
Local Abbreviation log_call :=
  (log_lookup MYSQL_AVAILABLE int_of_str environ fails).
Local Abbreviation sink_call :=
  (Sink.log_lookup MYSQL_AVAILABLE int_of_str environ fails).

Lemma valid_type_existsb (t : string) :
  existsb (String.eqb t) ["domain"; "contact"] = valid_type t.
Proof. unfold valid_type. simpl. now rewrite orb_false_r. Qed.

Lemma get_env_key :
  get_env environ "WHOIS_API_KEY" None = lookup environ "WHOIS_API_KEY".
Proof. unfold get_env. now destruct (lookup environ "WHOIS_API_KEY"). Qed.

Lemma key_configured_lookup :
  key_configured environ = true ->
  exists c k, lookup environ "WHOIS_API_KEY" = Some (String c k).
Proof.
  unfold key_configured. destruct (lookup environ "WHOIS_API_KEY") as [[|c k]|];
    try discriminate.
  intros _. now exists c, k.
Qed.

Lemma key_missing_lookup :
  key_configured environ = false ->
  lookup environ "WHOIS_API_KEY" = None \/ lookup environ "WHOIS_API_KEY" = Some "".
Proof.
  unfold key_configured. destruct (lookup environ "WHOIS_API_KEY") as [[|c k]|];
    try discriminate; auto.
Qed.

Lemma request_field_raises (key : string) (e : exn) :
  request_field req key = Raise e -> exists msg, e = AttributeError msg.
Proof.
  unfold request_field, raw_field, get, call_strip, no_attribute.
  destruct (or_ (get_json req) (VDict [])); cbn [bind];
    try (intros [= <-]; eexists; reflexivity).
  destruct (or_ (dict_get d key) (or_ (args_get req key) (VStr "")));
    try discriminate; intros [= <-]; eexists; reflexivity.
Qed.

(** A call of [log_lookup] returns when the configuration can be read, and
    raises what reading it raises; either way the call is on record. *)
Lemma log_lookup_returns (cfg_opt : option Sink.db_config)
    (domain info_type : value) (http_status : Z) (success : bool)
    (registrar : value) (w : world) :
  sink_config = Ok cfg_opt ->
  log_call domain info_type http_status success registrar w
  = (Ok tt,
     logged w {| a_domain := domain; a_info_type := info_type;
                 a_http_status := http_status; a_success := success;
                 a_registrar := or_ registrar VNone |}
       (snd (sink_call domain info_type http_status success registrar (driver w)))).
Proof.
  intros Hcfg. unfold log_lookup, Sink.log_lookup.
  destruct (connected_run MYSQL_AVAILABLE int_of_str environ fails
              (Sink.Insert {| Sink.r_domain := domain; Sink.r_info_type := info_type;
                              Sink.r_http_status := http_status;
                              Sink.r_success := if success then 1%Z else 0%Z;
                              Sink.r_registrar := or_ registrar VNone |})
              (driver w) cfg_opt Hcfg) as (ops & -> & _).
  reflexivity.
Qed.

Lemma log_lookup_raises (e : exn)
    (domain info_type : value) (http_status : Z) (success : bool)
    (registrar : value) (w : world) :
  sink_config = Raise e ->
  log_call domain info_type http_status success registrar w
  = (Raise e,
     logged w {| a_domain := domain; a_info_type := info_type;
                 a_http_status := http_status; a_success := success;
                 a_registrar := or_ registrar VNone |} (driver w)).
Proof.
  intros Hcfg.
  unfold log_lookup, Sink.log_lookup, Sink.bindD, Sink.get_db_connection.
  now rewrite Hcfg.
Qed.

Lemma sink_call_or (domain info_type : value) (http_status : Z)
    (success : bool) (registrar : value) :
  sink_call domain info_type http_status success (or_ registrar VNone)
  = sink_call domain info_type http_status success registrar.
Proof.
  unfold Sink.log_lookup.
  assert (H : or_ (or_ registrar VNone) VNone = or_ registrar VNone).
  { unfold or_. destruct (truthy registrar) eqn:E; [now rewrite E | reflexivity]. }
  now rewrite H.
Qed.

Lemma take_prefix (n : nat) (s : string) : exists rest, s = take n s ++ rest.
Proof.
  revert s; induction n as [|n IH]; intros [|c s]; simpl;
    try (eexists; reflexivity).
  destruct (IH s) as [rest Hrest]. exists rest. now rewrite <- Hrest.
Qed.

Ltac unfold_run :=
  unfold status_of, body_of, reply_of, world_of, whois_lookup, whois_lookup_try,
    bindM, lift, requests_get, ret.

Ltac log_step :=
  match goal with
  | H : Sink.get_db_config _ _ _ = Ok _ |- _ => rewrite (log_lookup_returns _ _ _ _ _ _ _ H)
  | H : Sink.get_db_config _ _ _ = Raise _ |- _ => rewrite (log_lookup_raises _ _ _ _ _ _ _ H)
  end.

Ltac scrutinee_step :=
  match goal with
  | |- context [request_field req "domain"] =>
      destruct (request_field req "domain") eqn:?
  | |- context [request_field req "type"] =>
      destruct (request_field req "type") eqn:?
  | |- context [is_empty ?d] => destruct (is_empty d) eqn:?
  | |- context [existsb ?f ?l] => destruct (existsb f l) eqn:?
  | |- context [get_env environ ?k ?d] =>
      let c := fresh "c" in let k' := fresh "k" in
      destruct (get_env environ k d) as [[|c k']|] eqn:?
  | |- context [upstream ?p] => destruct (upstream p) eqn:?
  | |- context [(status_code ?r =? 200)%Z] => destruct (status_code r =? 200)%Z eqn:?
  | |- context [json ?r] => destruct (json r) eqn:?
  | |- context [get ?d "WhoisRecord"] => destruct (get d "WhoisRecord") eqn:?
  | |- context [truthy (or_ ?r (VDict []))] => destruct (truthy (or_ r (VDict []))) eqn:?
  | |- context [String.eqb ?t "domain"] => destruct (String.eqb t "domain") eqn:?
  | |- context [extract_domain_information ?r] =>
      destruct (extract_domain_information r) eqn:?
  | |- context [extract_contact_information ?r] =>
      destruct (extract_contact_information r) eqn:?
  | |- context [get ?a "registrar"] => destruct (get a "registrar") eqn:?
  | |- context [registrar_name ?r] => destruct (registrar_name r) eqn:?
  | |- context [match ?e with AttributeError _ => _ | _ => _ end] => destruct e
  end.

Ltac all_cases :=
  repeat (first [log_step | scrutinee_step];
          cbn [fst snd negb attempts upstream_calls driver option_map logged called]).

(** With a readable configuration, a run that is not stopped before the
    provider call logs exactly one attempt and replies. *)
Lemma whois_lookup_one_attempt (cfg_opt : option Sink.db_config) (w : world) :
  sink_config = Ok cfg_opt ->
  validation_failure req = false ->
  configuration_failure environ req = false ->
  exists a status,
    attempts (world_of (lookup_run w)) = (attempts w ++ [a])%list
    /\ status_of (lookup_run w) = Some status
    /\ In status [200; 502; 404; 504; 500]%Z
    /\ a_success a = (status =? 200)%Z
    /\ (status <> 502%Z -> a_http_status a = status).
Proof.
  unfold validation_failure, configuration_failure. intros Hsink Hv Hc.
  unfold_run.
  destruct (request_field req "domain") as [domain|e] eqn:Hd.
  2:{ all_cases; do 2 eexists; (split; [reflexivity|]); (split; [reflexivity|]);
        simpl; auto 10. }
  destruct (request_field req "type") as [t|e] eqn:Ht.
  2:{ all_cases; do 2 eexists; (split; [reflexivity|]); (split; [reflexivity|]);
        simpl; auto 10. }
  rewrite valid_type_existsb, get_env_key.
  apply orb_false_iff in Hv as [Hne Hvt]. apply negb_false_iff in Hvt.
  rewrite Hne, Hvt in *. cbn [negb andb] in *. apply negb_false_iff in Hc.
  destruct (key_configured_lookup Hc) as (c & k & ->).
  all_cases; do 2 eexists; (split; [reflexivity|]); (split; [reflexivity|]);
    cbn [a_success a_http_status];
    (split; [simpl; auto 10|]); (split; [reflexivity|]);
    intros H; try reflexivity; now elim H.
Qed.

Section Called.

(** A request that passes validation, with a configured key *)
Variables (w : world) (domain t api_key : string).
Hypothesis Hdomain : request_field req "domain" = Ok domain.
Hypothesis Htype : request_field req "type" = Ok t.
Hypothesis Hnonempty : is_empty domain = false.
Hypothesis Hvalid : valid_type (lower t) = true.
Hypothesis Hkey : lookup environ "WHOIS_API_KEY" = Some api_key.
Hypothesis Hkey_nonempty : is_empty api_key = false.

Let params : list (string * string) :=
  [("apiKey", api_key); ("domainName", domain); ("outputFormat", "JSON")].

Ltac run_to_upstream :=
  unfold_run;
  rewrite Hdomain, Htype, Hnonempty, valid_type_existsb, Hvalid, get_env_key, Hkey;
  destruct api_key as [|c k]; [discriminate|];
  cbn [negb]; fold params.

(** C6, amended.  When the sink's configuration can be read, the inputs are
    valid and a key is configured: a provider answer with a status other
    than 200 gives a 502 reply carrying that status and a prefix of the
    provider's body of 300 characters at most, and one logged attempt with
    the provider's status and success false; an answer with status 200 whose
    parsed body is an object with no truthy ["WhoisRecord"] gives a 404 reply
    and one logged attempt with status 404 and success false; an answer with
    status 200 whose parsed body is not an object gives the 500 reply of an
    internal error, logged with status 500 and empty domain and type. *)
Theorem upstream_error_and_not_found
    (cfg_opt : option Sink.db_config) (resp : response) :
  sink_config = Ok cfg_opt ->
  upstream params = Ok resp ->
  (status_code resp <> 200%Z ->
   exists excerpt rest,
     text resp = excerpt ++ rest
     /\ String.length excerpt = Nat.min 300 (String.length (text resp))
     /\ lookup_run w
        = (Ok (VDict [ ("error", VStr "Upstream whois service error");
                       ("status", VInt (status_code resp));
                       ("details", VStr excerpt) ], 502%Z),
           logged (called w params)
             {| a_domain := VStr domain; a_info_type := VStr (lower t);
                a_http_status := status_code resp; a_success := false;
                a_registrar := VNone |}
             (snd (sink_call (VStr domain) (VStr (lower t)) (status_code resp)
                     false VNone (driver w)))))
  /\ (status_code resp = 200%Z ->
      forall data,
        json resp = Ok (VDict data) ->
        truthy (dict_get data "WhoisRecord") = false ->
        lookup_run w
        = (Ok (VDict [("error", VStr "Whois record not found for domain")], 404%Z),
           logged (called w params)
             {| a_domain := VStr domain; a_info_type := VStr (lower t);
                a_http_status := 404; a_success := false;
                a_registrar := VNone |}
             (snd (sink_call (VStr domain) (VStr (lower t)) 404 false VNone
                     (driver w)))))
  /\ (status_code resp = 200%Z ->
      forall body,
        json resp = Ok body ->
        is_dict body = false ->
        lookup_run w
        = (Ok (VDict [ ("error", VStr "Unexpected server error");
                       ("details",
                        VStr ("'" ++ type_name body
                                  ++ "' object has no attribute 'get'")) ], 500%Z),
           logged (called w params)
             {| a_domain := VStr ""; a_info_type := VStr "";
                a_http_status := 500; a_success := false;
                a_registrar := VNone |}
             (snd (sink_call (VStr "") (VStr "") 500 false VNone (driver w))))).
Proof.
  intros Hsink Hup. split; [|split].
  - intros Hs. apply Z.eqb_neq in Hs.
    destruct (take_prefix 300 (text resp)) as [rest Hrest].
    exists (take 300 (text resp)), rest.
    split; [exact Hrest|]. split; [apply length_take|].
    run_to_upstream. rewrite Hup, Hs. cbn [negb].
    rewrite (log_lookup_returns _ _ _ _ _ _ _ Hsink).
    change 300%Z with (Z.of_nat 300). rewrite slice_to_take. reflexivity.
  - intros Hs data Hj Hr. run_to_upstream.
    rewrite Hup, Hs, Hj. cbn [Z.eqb Pos.eqb negb get].
    assert (Hor : truthy (or_ (dict_get data "WhoisRecord") (VDict [])) = false).
    { unfold or_. now rewrite Hr. }
    rewrite Hor. cbn [negb].
    rewrite (log_lookup_returns _ _ _ _ _ _ _ Hsink). reflexivity.
  - intros Hs body Hj Hd. run_to_upstream.
    rewrite Hup, Hs, Hj. cbn [Z.eqb Pos.eqb negb].
    destruct body; try discriminate; cbn [get no_attribute type_name];
      rewrite (log_lookup_returns _ _ _ _ _ _ _ Hsink); reflexivity.
Qed.

(** X11.  The normalised outcome, when the sink's configuration can be read:
    a 200 answer whose ["WhoisRecord"] is a non-empty object gives a 200
    reply holding the view's extractor output, and one attempt with status
    200 and success true.  The registrar logged is the extractor's registrar
    in the domain view, and only the ["name"] of the record's ["registrar"]
    object in the contact view; an empty one is logged as [None]. *)
Theorem successful_lookup
    (cfg_opt : option Sink.db_config) (resp : response)
    (data record : list (string * value)) :
  sink_config = Ok cfg_opt ->
  upstream params = Ok resp ->
  status_code resp = 200%Z ->
  json resp = Ok (VDict data) ->
  dict_get data "WhoisRecord" = VDict record ->
  record <> [] ->
  exists result registrar,
    lookup_run w
    = (Ok (VDict [ ("domain", VStr domain); ("type", VStr (lower t));
                   ("data", result) ], 200%Z),
       logged (called w params)
         {| a_domain := VStr domain; a_info_type := VStr (lower t);
            a_http_status := 200; a_success := true;
            a_registrar := registrar |}
         (snd (sink_call (VStr domain) (VStr (lower t)) 200 true registrar
                 (driver w))))
    /\ (lower t = "domain" ->
        extract_domain_information (VDict record) = Ok result
        /\ registrar
           = or_default (first_present record "registrarName")
               (or_default (sub_field record "registrar" "name") VNone))
    /\ (lower t = "contact" ->
        extract_contact_information (VDict record) = Ok result
        /\ registrar = or_default (sub_field record "registrar" "name") VNone).
Proof.
  intros Hsink Hup Hs Hj Hr Hne. run_to_upstream.
  rewrite Hup, Hs, Hj. cbn [Z.eqb Pos.eqb negb get]. rewrite Hr, dict_or_empty.
  assert (Htruthy : truthy (VDict record) = true) by now destruct record.
  rewrite Htruthy. cbn [negb].
  destruct (String.eqb_spec (lower t) "domain") as [Hview|Hview].
  - rewrite extract_domain_information_dict. cbn [get].
    change (dict_get _ "registrar")
      with (or_default (first_present record "registrarName")
              (or_default (sub_field record "registrar" "name") (VStr ""))).
    rewrite (log_lookup_returns _ _ _ _ _ _ _ Hsink).
    eexists.
    exists (or_ (or_default (first_present record "registrarName")
                   (or_default (sub_field record "registrar" "name") (VStr "")))
                VNone).
    split; [now rewrite sink_call_or|]. split.
    + intros _. split; [reflexivity|].
      destruct (first_present record "registrarName") as [v|] eqn:E; simpl.
      * unfold or_. now rewrite (first_present_truthy _ _ _ E).
      * destruct (sub_field record "registrar" "name") as [v|] eqn:E'; simpl;
          [|reflexivity].
        unfold or_. now rewrite (sub_field_truthy _ _ _ _ E').
    + intros Hc. rewrite Hview in Hc. discriminate.
  - rewrite extract_contact_information_dict, registrar_name_dict.
    rewrite (log_lookup_returns _ _ _ _ _ _ _ Hsink).
    eexists.
    exists (or_ (match dict_get record "registrar" with
                 | VDict r => dict_get r "name"
                 | _ => VNone
                 end) VNone).
    split; [now rewrite sink_call_or|]. split.
    + intros Hd. contradiction.
    + intros _. split; [reflexivity|].
      unfold sub_field, or_.
      destruct (dict_get record "registrar"); try reflexivity.
      now destruct (truthy (dict_get d "name")).
Qed.

(** X12.  When the sink's configuration can be read, a 200 answer whose
    ["WhoisRecord"] is truthy and not an object (a string, a number, a
    non-empty list) is an internal error in both views: status 500 naming
    the missing [get], and one attempt logged with status 500 and empty
    domain and type, after the one provider call. *)
Theorem non_object_record_is_internal_error
    (cfg_opt : option Sink.db_config) (resp : response)
    (data : list (string * value)) :
  sink_config = Ok cfg_opt ->
  upstream params = Ok resp ->
  status_code resp = 200%Z ->
  json resp = Ok (VDict data) ->
  truthy (dict_get data "WhoisRecord") = true ->
  is_dict (dict_get data "WhoisRecord") = false ->
  lookup_run w
  = (Ok (VDict [ ("error", VStr "Unexpected server error");
                 ("details",
                  VStr ("'" ++ type_name (dict_get data "WhoisRecord")
                            ++ "' object has no attribute 'get'")) ], 500%Z),
     logged (called w params)
       {| a_domain := VStr ""; a_info_type := VStr "";
          a_http_status := 500; a_success := false;
          a_registrar := VNone |}
       (snd (sink_call (VStr "") (VStr "") 500 false VNone (driver w)))).
Proof.
  intros Hsink Hup Hs Hj Ht Hd. run_to_upstream.
  rewrite Hup, Hs, Hj. cbn [Z.eqb Pos.eqb negb get].
  assert (Hor : or_ (dict_get data "WhoisRecord") (VDict [])
                = dict_get data "WhoisRecord").
  { unfold or_. now rewrite Ht. }
  rewrite Hor, Ht. cbn [negb].
  destruct (non_mapping_raises _ Hd) as (_ & -> & ->).
  destruct (String.eqb (lower t) "domain");
    unfold no_attribute; rewrite (log_lookup_returns _ _ _ _ _ _ _ Hsink);
    reflexivity.
Qed.

Lemma timeout_run (cfg_opt : option Sink.db_config) :
  sink_config = Ok cfg_opt ->
  upstream params = Raise Timeout ->
  let query key := match lookup (args req) key with
                   | Some s => VStr s
                   | None => VStr ""
                   end in
  lookup_run w
  = (Ok (VDict [("error", VStr "Upstream whois request timed out")], 504%Z),
     logged (called w params)
       {| a_domain := query "domain"; a_info_type := query "type";
          a_http_status := 504; a_success := false;
          a_registrar := VNone |}
       (snd (sink_call (query "domain") (query "type") 504 false VNone (driver w)))).
Proof.
  intros Hsink Hup query. run_to_upstream. rewrite Hup.
  rewrite (log_lookup_returns _ _ _ _ _ _ _ Hsink).
  assert (Hq : forall key, or_ (args_get req key) (VStr "") = query key).
  { intros key. unfold args_get, query.
    now destruct (lookup (args req) key) as [[|? ?]|]. }
  now rewrite !Hq.
Qed.

(** X13.  When the sink's configuration can be read, a provider timeout gives
    the 504 reply and one attempt with status 504 and success false; the
    domain and type logged are the ones of the query string, empty when it
    has none. *)
Theorem timeout_reply_and_attempt (cfg_opt : option Sink.db_config) :
  sink_config = Ok cfg_opt ->
  upstream params = Raise Timeout ->
  let query key := match lookup (args req) key with
                   | Some s => VStr s
                   | None => VStr ""
                   end in
  lookup_run w
  = (Ok (VDict [("error", VStr "Upstream whois request timed out")], 504%Z),
     logged (called w params)
       {| a_domain := query "domain"; a_info_type := query "type";
          a_http_status := 504; a_success := false;
          a_registrar := VNone |}
       (snd (sink_call (query "domain") (query "type") 504 false VNone (driver w)))).
Proof. exact (timeout_run cfg_opt). Qed.

End Called.

Lemma unreadable_input_run (cfg_opt : option Sink.db_config) (w : world) (e : exn) :
  sink_config = Ok cfg_opt ->
  request_field req "domain" = Raise e
  \/ (exists domain, request_field req "domain" = Ok domain
                     /\ request_field req "type" = Raise e) ->
  exists msg,
    e = AttributeError msg
    /\ lookup_run w
       = (Ok (VDict [ ("error", VStr "Unexpected server error");
                      ("details", VStr msg) ], 500%Z),
          logged w {| a_domain := VStr ""; a_info_type := VStr "";
                      a_http_status := 500; a_success := false;
                      a_registrar := VNone |}
            (snd (sink_call (VStr "") (VStr "") 500 false VNone (driver w)))).
Proof.
  intros Hsink [Hd | (domain & Hd & Ht)].
  - destruct (request_field_raises _ _ Hd) as [msg ->]. exists msg.
    split; [reflexivity|]. unfold_run. rewrite Hd.
    now rewrite (log_lookup_returns _ _ _ _ _ _ _ Hsink).
  - destruct (request_field_raises _ _ Ht) as [msg ->]. exists msg.
    split; [reflexivity|]. unfold_run. rewrite Hd, Ht.
    now rewrite (log_lookup_returns _ _ _ _ _ _ _ Hsink).
Qed.

(** C7, amended.  For a request whose two inputs can be read, a validation
    failure (the domain is empty after trimming, or the trimmed and
    lowercased type is neither ["domain"] nor ["contact"]) ends with status
    400 and a missing credential with status 500, both leaving the world
    untouched: no provider call, no logged attempt.  When the sink's
    configuration can be read, every other run logs exactly one attempt and
    ends with 200, 502, 404, 504 or 500, the attempt recording success
    exactly for 200; among them the run of a request whose domain or type
    cannot be read, which ends with 500 and no provider call even when the
    domain is empty. *)
Theorem no_attempt_before_upstream (w : world) :
  (validation_failure req = true ->
   exists body, lookup_run w = (Ok (body, 400%Z), w))
  /\ (configuration_failure environ req = true ->
      exists body, lookup_run w = (Ok (body, 500%Z), w))
  /\ (forall cfg_opt,
        sink_config = Ok cfg_opt ->
        validation_failure req = false ->
        configuration_failure environ req = false ->
        exists a status,
          attempts (world_of (lookup_run w)) = (attempts w ++ [a])%list
          /\ status_of (lookup_run w) = Some status
          /\ In status [200; 502; 404; 504; 500]%Z
          /\ a_success a = (status =? 200)%Z
          /\ (status <> 502%Z -> a_http_status a = status))
  /\ (forall cfg_opt e,
        sink_config = Ok cfg_opt ->
        request_field req "domain" = Raise e
        \/ (exists domain, request_field req "domain" = Ok domain
                           /\ request_field req "type" = Raise e) ->
        validation_failure req = false
        /\ status_of (lookup_run w) = Some 500%Z
        /\ upstream_calls (world_of (lookup_run w)) = upstream_calls w
        /\ exists a, attempts (world_of (lookup_run w)) = (attempts w ++ [a])%list).
Proof.
  split; [|split; [|split]].
  - unfold validation_failure. unfold_run.
    destruct (request_field req "domain") as [domain|]; [|discriminate].
    destruct (request_field req "type") as [t|]; [|discriminate].
    rewrite valid_type_existsb. intros H.
    destruct (is_empty domain); [eexists; reflexivity|].
    cbn [orb] in H. rewrite H. eexists; reflexivity.
  - unfold configuration_failure. unfold_run.
    destruct (request_field req "domain") as [domain|]; [|discriminate].
    destruct (request_field req "type") as [t|]; [|discriminate].
    rewrite valid_type_existsb, get_env_key. intros H.
    apply andb_true_iff in H as [H Hk]. apply andb_true_iff in H as [Hne Hv].
    apply negb_true_iff in Hne, Hk. rewrite Hne, Hv. cbn [negb].
    destruct (key_missing_lookup Hk) as [-> | ->]; eexists; reflexivity.
  - intros cfg_opt. apply whois_lookup_one_attempt.
  - intros cfg_opt e Hsink Hraise.
    assert (Hv : validation_failure req = false).
    { unfold validation_failure.
      destruct Hraise as [-> | (domain & -> & ->)]; reflexivity. }
    split; [exact Hv|].
    destruct (unreadable_input_run cfg_opt w e Hsink Hraise) as (msg & _ & ->).
    split; [reflexivity|]. split; [reflexivity|]. eexists; reflexivity.
Qed.

(** C10.  On every lookup that ends with status 200 the reply's ["domain"]
    and ["type"] are the normalised inputs: the domain read from the body or
    the query string with surrounding whitespace stripped, the type stripped
    and lowercased. *)
Theorem success_echoes_normalized_inputs (w : world) :
  status_of (lookup_run w) = Some 200%Z ->
  exists raw_domain raw_type data,
    raw_field req "domain" = Ok (VStr raw_domain)
    /\ raw_field req "type" = Ok (VStr raw_type)
    /\ body_of (lookup_run w)
       = Some (VDict [ ("domain", VStr (strip raw_domain));
                       ("type", VStr (lower (strip raw_type)));
                       ("data", data) ]).
Proof.
  destruct sink_config as [cfg_opt|sink_error] eqn:Hsink.
  - unfold_run. unfold request_field, no_attribute.
    destruct (raw_field req "domain") as [[ |b|z|f|raw_domain|l|d]|e];
      cbn [bind call_strip fst snd];
      try (all_cases; discriminate).
    destruct (raw_field req "type") as [[ |b|z|f|raw_type|l|d]|e];
      cbn [bind call_strip fst snd];
      try (all_cases; discriminate).
    all_cases; try discriminate;
      intros _; exists raw_domain, raw_type; eexists; repeat split; reflexivity.
  - unfold_run. unfold request_field, no_attribute.
    destruct (raw_field req "domain") as [[ |b|z|f|raw_domain|l|d]|e];
      cbn [bind call_strip fst snd];
      try (all_cases; discriminate).
    destruct (raw_field req "type") as [[ |b|z|f|raw_type|l|d]|e];
      cbn [bind call_strip fst snd];
      try (all_cases; discriminate).
Qed.

(** X9.  Where the inputs come from: the JSON body first, the query string when
    the body has no truthy value under the key, the empty string last.  A
    body that is falsy counts as an empty object; a truthy body that is not
    an object (a JSON list, string or number) raises. *)
Theorem raw_field_sources (key : string) :
  (truthy (get_json req) = false \/ is_dict (get_json req) = true ->
   raw_field req key
   = Ok (let body := match get_json req with VDict d => d | _ => [] end in
         if truthy (dict_get body key) then dict_get body key
         else match lookup (args req) key with
              | Some s => VStr s
              | None => VStr ""
              end))
  /\ (truthy (get_json req) = true -> is_dict (get_json req) = false ->
      raw_field req key = Raise (no_attribute (get_json req) "get")).
Proof.
  unfold raw_field, args_get, or_. split.
  - intros H.
    assert (Hp : (if truthy (get_json req) then get_json req else VDict [])
                 = VDict (match get_json req with VDict d => d | _ => [] end)).
    { destruct (get_json req) as [ |[]|[| |]|[[] ?]|[|]|[|]|[|]];
        try reflexivity; destruct H; discriminate. }
    rewrite Hp. cbn [get bind].
    destruct (truthy (dict_get _ key)); [reflexivity|].
    now destruct (lookup (args req) key) as [[|c s]|].
  - intros Ht Hd. rewrite Ht.
    destruct (get_json req); try reflexivity; discriminate.
Qed.

(** X10.  When the sink's configuration can be read, an input that cannot be
    read (the body is a truthy non-object, or the value found is truthy and
    not a string) ends as an internal error before any validation: status
    500 with the exception text, no provider call, and one attempt logged
    with empty domain and type. *)
Theorem unreadable_input_is_internal_error
    (cfg_opt : option Sink.db_config) (w : world) (e : exn) :
  sink_config = Ok cfg_opt ->
  request_field req "domain" = Raise e
  \/ (exists domain, request_field req "domain" = Ok domain
                     /\ request_field req "type" = Raise e) ->
  exists msg,
    e = AttributeError msg
    /\ lookup_run w
       = (Ok (VDict [ ("error", VStr "Unexpected server error");
                      ("details", VStr msg) ], 500%Z),
          logged w {| a_domain := VStr ""; a_info_type := VStr "";
                      a_http_status := 500; a_success := false;
                      a_registrar := VNone |}
            (snd (sink_call (VStr "") (VStr "") 500 false VNone (driver w)))).
Proof. exact (unreadable_input_run cfg_opt w e). Qed.

(** X14.  A run either replies or raises, and it raises only what reading
    the sink's configuration raises.  A reply has one of the six documented
    statuses; a 200 reply holds exactly ["domain"], ["type"] and ["data"],
    every other reply an ["error"] message. *)
Theorem reply_shape (w : world) :
  match fst (lookup_run w) with
  | Ok (body, status) =>
      exists fields,
        body = VDict fields
        /\ In status [200; 400; 404; 500; 502; 504]%Z
        /\ if (status =? 200)%Z
           then map fst fields = ["domain"; "type"; "data"]
           else exists msg, lookup fields "error" = Some (VStr msg)
  | Raise e => sink_config = Raise e
  end.
Proof.
  destruct sink_config as [cfg_opt|sink_error] eqn:Hsink.
  - unfold_run. all_cases;
      eexists; (split; [reflexivity|]); (split; [simpl; auto 10|]);
      cbn [Z.eqb Pos.eqb]; try reflexivity; eexists; reflexivity.
  - unfold_run. all_cases; try reflexivity;
      eexists; (split; [reflexivity|]); (split; [simpl; auto 10|]);
      cbn [Z.eqb Pos.eqb]; try reflexivity; eexists; reflexivity.
Qed.

(** X15.  The provider is called at most once, and exactly when the inputs
    are valid and a key is configured; the call carries the key, the trimmed
    domain and the output format.  The log only grows: by at most one
    attempt when the sink's configuration can be read, by at most two
    otherwise. *)
Theorem upstream_called_at_most_once (w : world) :
  (exists new,
      attempts (world_of (lookup_run w)) = (attempts w ++ new)%list
      /\ List.length new <= match sink_config with Ok _ => 1 | Raise _ => 2 end)
  /\ match request_field req "domain", lookup environ "WHOIS_API_KEY" with
     | Ok domain, Some api_key =>
         upstream_calls (world_of (lookup_run w))
         = (upstream_calls w ++
            if reaches_upstream environ req
            then [[("apiKey", api_key); ("domainName", domain);
                   ("outputFormat", "JSON")]]
            else [])%list
     | _, _ =>
         reaches_upstream environ req = false
         /\ upstream_calls (world_of (lookup_run w)) = upstream_calls w
     end.
Proof.
  assert (Hgrow : forall (l : list attempt) a b, ((l ++ [a]) ++ [b] = l ++ [a; b])%list).
  { intros l a b. now rewrite <- app_assoc. }
  unfold reaches_upstream, key_configured.
  destruct sink_config as [cfg_opt|sink_error] eqn:Hsink; unfold_run;
    rewrite get_env_key;
    (destruct (request_field req "domain") as [domain|e] eqn:Hd;
     [|all_cases;
       (split; [eexists; split; [reflexivity | simpl; lia] | now split])]);
    (destruct (request_field req "type") as [t|e] eqn:Ht;
     [|all_cases;
       (split; [eexists; split; [reflexivity | simpl; lia]|]);
       destruct (lookup environ "WHOIS_API_KEY");
       rewrite ?app_nil_r; try split; reflexivity]);
    rewrite valid_type_existsb;
    (destruct (is_empty domain); cbn [negb andb fst snd];
     [split; [exists []; rewrite app_nil_r; split; [reflexivity | simpl; lia]|];
      destruct (lookup environ "WHOIS_API_KEY");
      rewrite ?app_nil_r; try split; reflexivity|]);
    (destruct (valid_type (lower t)); cbn [negb andb fst snd];
     [|split; [exists []; rewrite app_nil_r; split; [reflexivity | simpl; lia]|];
       destruct (lookup environ "WHOIS_API_KEY");
       rewrite ?app_nil_r; try split; reflexivity]);
    (destruct (lookup environ "WHOIS_API_KEY") as [[|c k]|];
     cbn [is_empty negb fst snd];
     [split; [exists []; rewrite app_nil_r; split; [reflexivity | simpl; lia]|];
      rewrite ?app_nil_r; try split; reflexivity
     | |split; [exists []; rewrite app_nil_r; split; [reflexivity | simpl; lia]|];
        rewrite ?app_nil_r; try split; reflexivity]);
    all_cases; rewrite ?Hgrow;
    (split; [eexists; split; [reflexivity | simpl; lia] | reflexivity]).
Qed.


End Orchestrator.

Lemma whole_prefix (s excerpt rest : string) :
  s = excerpt ++ rest -> String.length excerpt = String.length s -> excerpt = s.
Proof.
  intros -> H. rewrite length_append in H.
  destruct rest; [now rewrite append_empty | simpl in H; lia].
Qed.

(** C6, as stated, fails: a 200 answer whose parsed body is not an object
    (here JSON [null]) has no primary record field, yet the reply is the 500
    of an internal error and the attempt is logged with status 500. *)
Lemma not_found_needs_object_body :
  whois_lookup true (fun _ => Ok 3306%Z) [("WHOIS_API_KEY", "secret")]
    (fun _ _ => None)
    (fun _ => Ok {| status_code := 200; text := "null"; json := Ok VNone |})
    {| get_json := VDict [("domain", VStr "example.com"); ("type", VStr "domain")];
       args := [] |}
    initial
  = (Ok (VDict [ ("error", VStr "Unexpected server error");
                 ("details", VStr "'NoneType' object has no attribute 'get'") ],
         500%Z),
     {| attempts := [ {| a_domain := VStr ""; a_info_type := VStr "";
                         a_http_status := 500; a_success := false;
                         a_registrar := VNone |} ];
        upstream_calls := [ [("apiKey", "secret"); ("domainName", "example.com");
                              ("outputFormat", "JSON")] ];
        driver := [] |}).
Proof. reflexivity. Qed.

Lemma upstream_error_and_not_found_witness :
  let environ := [("WHOIS_API_KEY", "secret")] in
  let req := {| get_json := VDict [("domain", VStr " example.com"); ("type", VStr "Domain")];
                args := [] |} in
  let run answer :=
    whois_lookup true (fun _ => Ok 3306%Z) environ (fun _ _ => None)
      (fun _ => Ok answer) req initial in
  let after status domain info_type :=
    {| attempts := [ {| a_domain := VStr domain; a_info_type := VStr info_type;
                        a_http_status := status; a_success := false;
                        a_registrar := VNone |} ];
       upstream_calls := [ [("apiKey", "secret"); ("domainName", "example.com");
                             ("outputFormat", "JSON")] ];
       driver := [] |} in
  run {| status_code := 503; text := "Service Unavailable";
         json := Raise (OtherError "Expecting value") |}
  = (Ok (VDict [ ("error", VStr "Upstream whois service error");
                 ("status", VInt 503);
                 ("details", VStr "Service Unavailable") ], 502%Z),
     after 503%Z "example.com" "domain")
  /\ run {| status_code := 200; text := "{}"; json := Ok (VDict []) |}
     = (Ok (VDict [("error", VStr "Whois record not found for domain")], 404%Z),
        after 404%Z "example.com" "domain")
  /\ run {| status_code := 200; text := "[]"; json := Ok (VList []) |}
     = (Ok (VDict [ ("error", VStr "Unexpected server error");
                    ("details", VStr "'list' object has no attribute 'get'") ], 500%Z),
        after 500%Z "" "").
Proof.
  intros environ req run after.
  split; [|split].
  - destruct (upstream_error_and_not_found
                true (fun _ => Ok 3306%Z) environ (fun _ _ => None)
                (fun _ => Ok {| status_code := 503; text := "Service Unavailable";
                                json := Raise (OtherError "Expecting value") |})
                req initial "example.com" "Domain" "secret"
                eq_refl eq_refl eq_refl eq_refl eq_refl eq_refl
                None {| status_code := 503; text := "Service Unavailable";
                        json := Raise (OtherError "Expecting value") |}
                eq_refl eq_refl) as [H _].
    destruct H as (excerpt & rest & Htext & Hlen & Hrun); [discriminate|].
    rewrite (whole_prefix _ _ _ Htext Hlen) in Hrun. exact Hrun.
  - destruct (upstream_error_and_not_found
                true (fun _ => Ok 3306%Z) environ (fun _ _ => None)
                (fun _ => Ok {| status_code := 200; text := "{}"; json := Ok (VDict []) |})
                req initial "example.com" "Domain" "secret"
                eq_refl eq_refl eq_refl eq_refl eq_refl eq_refl
                None {| status_code := 200; text := "{}"; json := Ok (VDict []) |}
                eq_refl eq_refl) as (_ & H & _).
    exact (H eq_refl [] eq_refl eq_refl).
  - destruct (upstream_error_and_not_found
                true (fun _ => Ok 3306%Z) environ (fun _ _ => None)
                (fun _ => Ok {| status_code := 200; text := "[]"; json := Ok (VList []) |})
                req initial "example.com" "Domain" "secret"
                eq_refl eq_refl eq_refl eq_refl eq_refl eq_refl
                None {| status_code := 200; text := "[]"; json := Ok (VList []) |}
                eq_refl eq_refl) as (_ & _ & H).
    exact (H eq_refl (VList []) eq_refl eq_refl).
Defined.

(** C7, as stated, fails: the body [{"type": 5}] has a domain that is empty
    after trimming, yet the run ends with status 500 and one logged attempt,
    the type being read before the domain is checked. *)
Lemma empty_domain_unreadable_type :
  request_field {| get_json := VDict [("type", VInt 5)]; args := [] |} "domain" = Ok ""
  /\ whois_lookup true (fun _ => Ok 3306%Z) [("WHOIS_API_KEY", "secret")]
       (fun _ _ => None) (fun _ => Raise Timeout)
       {| get_json := VDict [("type", VInt 5)]; args := [] |} initial
     = (Ok (VDict [ ("error", VStr "Unexpected server error");
                    ("details", VStr "'int' object has no attribute 'strip'") ],
            500%Z),
        {| attempts := [ {| a_domain := VStr ""; a_info_type := VStr "";
                            a_http_status := 500; a_success := false;
                            a_registrar := VNone |} ];
           upstream_calls := [];
           driver := [] |}).
Proof. split; reflexivity. Qed.

Lemma no_attempt_before_upstream_witness :
  let environ := [("WHOIS_API_KEY", "secret")] in
  let run environ upstream req :=
    whois_lookup true (fun _ => Ok 3306%Z) environ (fun _ _ => None) upstream req initial in
  let unavailable := {| status_code := 503; text := "Service Unavailable";
                        json := Raise (OtherError "Expecting value") |} in
  let no_domain := {| get_json := VDict [("type", VStr "domain")]; args := [] |} in
  let bad_type := {| get_json := VNone;
                     args := [("domain", "example.com"); ("type", "owner")] |} in
  let good := {| get_json := VDict [("domain", VStr "example.com")];
                 args := [("type", " CONTACT ")] |} in
  let unreadable := {| get_json := VDict [("domain", VInt 7)]; args := [] |} in
  (exists body, run environ (fun _ => Ok unavailable) no_domain = (Ok (body, 400%Z), initial))
  /\ (exists body, run environ (fun _ => Ok unavailable) bad_type = (Ok (body, 400%Z), initial))
  /\ (exists body, run [] (fun _ => Ok unavailable) good = (Ok (body, 500%Z), initial))
  /\ (exists a,
         attempts (world_of (run environ (fun _ => Raise Timeout) good)) = [a]
         /\ a_http_status a = 504%Z /\ a_success a = false)
  /\ (status_of (run environ (fun _ => Ok unavailable) unreadable) = Some 500%Z
      /\ upstream_calls (world_of (run environ (fun _ => Ok unavailable) unreadable)) = []).
Proof.
  intros environ run unavailable no_domain bad_type good unreadable.
  split; [|split; [|split; [|split]]].
  - apply (no_attempt_before_upstream true (fun _ => Ok 3306%Z) environ (fun _ _ => None)
             (fun _ => Ok unavailable) no_domain initial).
    reflexivity.
  - apply (no_attempt_before_upstream true (fun _ => Ok 3306%Z) environ (fun _ _ => None)
             (fun _ => Ok unavailable) bad_type initial).
    reflexivity.
  - apply (no_attempt_before_upstream true (fun _ => Ok 3306%Z) [] (fun _ _ => None)
             (fun _ => Ok unavailable) good initial).
    reflexivity.
  - destruct (no_attempt_before_upstream true (fun _ => Ok 3306%Z) environ
                (fun _ _ => None) (fun _ => Raise Timeout) good initial)
      as (_ & _ & H & _).
    destruct (H None eq_refl eq_refl eq_refl) as (a & status & Ha & Hs & _ & Hok & Hst).
    injection Hs as <-. exists a.
    split; [exact Ha|]. split; [apply Hst; discriminate | exact Hok].
  - destruct (no_attempt_before_upstream true (fun _ => Ok 3306%Z) environ
                (fun _ _ => None) (fun _ => Ok unavailable) unreadable initial)
      as (_ & _ & _ & H).
    destruct (H None (AttributeError "'int' object has no attribute 'strip'") eq_refl)
      as (_ & Hs & Hu & _).
    + left. reflexivity.
    + split; [exact Hs | exact Hu].
Defined.

Lemma success_echoes_normalized_inputs_witness :
  let environ := [("WHOIS_API_KEY", "secret")] in
  let record := VDict [("domainName", VStr "example.com")] in
  let found := {| status_code := 200; text := "";
                  json := Ok (VDict [("WhoisRecord", record)]) |} in
  let req := {| get_json := VDict [("domain", VStr "  example.com ")];
                args := [("domain", "ignored.org"); ("type", " Domain")] |} in
  exists data,
    body_of (whois_lookup true (fun _ => Ok 3306%Z) environ (fun _ _ => None)
               (fun _ => Ok found) req initial)
    = Some (VDict [("domain", VStr "example.com"); ("type", VStr "domain");
                   ("data", data)]).
Proof.
  intros environ record found req.
  destruct (success_echoes_normalized_inputs
              true (fun _ => Ok 3306%Z) environ (fun _ _ => None)
              (fun _ => Ok found) req initial)
    as (raw_domain & raw_type & data & Hd & Ht & Hbody).
  - reflexivity.
  - exists data. injection Hd as <-. injection Ht as <-. exact Hbody.
Defined.

(** C8.  The timeout handler does not log the inputs that were parsed before
    the provider call: it reads the query string again.  A request whose
    domain and type arrive in the JSON body is logged with both empty, though
    both were parsed and sent to the provider.  (No database is configured
    in this environment, so the driver is left alone.) *)
Theorem timeout_logs_query_string_only
    (MYSQL_AVAILABLE : bool) (int_of_str : string -> result Z)
    (fails : list Sink.op -> Sink.op -> option exn) (port : Z) :
  int_of_str "3306" = Ok port ->
  let environ := [("WHOIS_API_KEY", "secret")] in
  let req := {| get_json := VDict [("domain", VStr "example.com"); ("type", VStr "domain")];
                args := [] |} in
  request_field req "domain" = Ok "example.com"
  /\ request_field req "type" = Ok "domain"
  /\ whois_lookup MYSQL_AVAILABLE int_of_str environ fails (fun _ => Raise Timeout)
       req initial
     = (Ok (VDict [("error", VStr "Upstream whois request timed out")], 504%Z),
        {| attempts :=
             [ {| a_domain := VStr ""; a_info_type := VStr "";
                  a_http_status := 504; a_success := false;
                  a_registrar := VNone |} ];
           upstream_calls :=
             [ [("apiKey", "secret"); ("domainName", "example.com");
                ("outputFormat", "JSON")] ];
           driver := [] |}).
Proof.
  intros Hport environ req. split; [reflexivity|]. split; [reflexivity|].
  assert (Hcfg : Sink.get_db_config MYSQL_AVAILABLE int_of_str environ = Ok None).
  { unfold Sink.get_db_config. destruct MYSQL_AVAILABLE; [|reflexivity].
    cbn. now rewrite Hport. }
  rewrite (timeout_run MYSQL_AVAILABLE int_of_str environ fails (fun _ => Raise Timeout)
             req initial "example.com" "domain" "secret"
             eq_refl eq_refl eq_refl eq_refl eq_refl eq_refl None Hcfg eq_refl).
  unfold Sink.log_lookup, Sink.bindD, Sink.get_db_connection. rewrite Hcfg.
  reflexivity.
Qed.

Lemma timeout_logs_query_string_only_witness :
  attempts
    (world_of
       (whois_lookup true (fun _ => Ok 3306%Z) [("WHOIS_API_KEY", "secret")]
          (fun _ _ => None) (fun _ => Raise Timeout)
          {| get_json := VDict [("domain", VStr "example.com"); ("type", VStr "domain")];
             args := [] |}
          initial))
  = [ {| a_domain := VStr ""; a_info_type := VStr "";
         a_http_status := 504; a_success := false; a_registrar := VNone |} ].
Proof.
  destruct (timeout_logs_query_string_only true (fun _ => Ok 3306%Z) (fun _ _ => None)
              3306%Z eq_refl) as (_ & _ & H).
  rewrite H. reflexivity.
Defined.

Lemma raw_field_sources_witness :
  raw_field {| get_json := VDict [("domain", VStr ""); ("type", VStr "contact")];
               args := [("domain", "example.com"); ("type", "domain")] |} "domain"
  = Ok (VStr "example.com")
  /\ raw_field {| get_json := VDict [("domain", VStr ""); ("type", VStr "contact")];
                  args := [("domain", "example.com"); ("type", "domain")] |} "type"
     = Ok (VStr "contact")
  /\ raw_field {| get_json := VList [VStr "example.com"]; args := [] |} "domain"
     = Raise (AttributeError "'list' object has no attribute 'get'").
Proof.
  split; [|split].
  - apply (raw_field_sources
             {| get_json := VDict [("domain", VStr ""); ("type", VStr "contact")];
                args := [("domain", "example.com"); ("type", "domain")] |} "domain").
    right. reflexivity.
  - apply (raw_field_sources
             {| get_json := VDict [("domain", VStr ""); ("type", VStr "contact")];
                args := [("domain", "example.com"); ("type", "domain")] |} "type").
    right. reflexivity.
  - apply (raw_field_sources {| get_json := VList [VStr "example.com"]; args := [] |}
             "domain"); reflexivity.
Defined.

Lemma unreadable_input_is_internal_error_witness :
  let run environ req :=
    whois_lookup true (fun _ => Ok 3306%Z) environ (fun _ _ => None)
      (fun _ => Raise Timeout) req initial in
  run [("WHOIS_API_KEY", "secret")]
    {| get_json := VDict [("domain", VStr ""); ("type", VInt 5)]; args := [] |}
  = (Ok (VDict [ ("error", VStr "Unexpected server error");
                 ("details", VStr "'int' object has no attribute 'strip'") ], 500%Z),
     {| attempts := [ {| a_domain := VStr ""; a_info_type := VStr "";
                         a_http_status := 500; a_success := false;
                         a_registrar := VNone |} ];
        upstream_calls := []; driver := [] |})
  /\ body_of (run [] {| get_json := VDict [("domain", VList [VStr "example.com"])];
                        args := [] |})
     = Some (VDict [ ("error", VStr "Unexpected server error");
                     ("details", VStr "'list' object has no attribute 'strip'") ]).
Proof.
  intros run. split.
  - destruct (unreadable_input_is_internal_error
                true (fun _ => Ok 3306%Z) [("WHOIS_API_KEY", "secret")] (fun _ _ => None)
                (fun _ => Raise Timeout)
                {| get_json := VDict [("domain", VStr ""); ("type", VInt 5)]; args := [] |}
                None initial (AttributeError "'int' object has no attribute 'strip'")
                eq_refl)
      as (msg & Hmsg & Hrun).
    + right. exists "". split; reflexivity.
    + injection Hmsg as <-. exact Hrun.
  - destruct (unreadable_input_is_internal_error
                true (fun _ => Ok 3306%Z) [] (fun _ _ => None)
                (fun _ => Raise Timeout)
                {| get_json := VDict [("domain", VList [VStr "example.com"])]; args := [] |}
                None initial (AttributeError "'list' object has no attribute 'strip'")
                eq_refl)
      as (msg & Hmsg & Hrun).
    + left. reflexivity.
    + injection Hmsg as <-. unfold run. rewrite Hrun. reflexivity.
Defined.

Lemma successful_lookup_witness :
  let environ := [("WHOIS_API_KEY", "secret"); ("MYSQL_HOST", "db.internal");
                  ("MYSQL_USER", "whois"); ("MYSQL_DB", "lookups")] in
  let record := [("registrarName", VStr "Example Registrar");
                 ("registrar", VStr "n/a")] in
  let found := {| status_code := 200; text := "";
                  json := Ok (VDict [("WhoisRecord", VDict record)]) |} in
  let by_view view := {| get_json := VDict [("domain", VStr "example.com");
                                            ("type", VStr view)];
                         args := [] |} in
  let run view :=
    whois_lookup true (fun _ => Ok 3306%Z) environ (fun _ _ => None)
      (fun _ => Ok found) (by_view view) initial in
  (status_of (run "domain") = Some 200%Z
   /\ map a_registrar (attempts (world_of (run "domain"))) = [VStr "Example Registrar"])
  /\ (status_of (run "contact") = Some 200%Z
      /\ map a_registrar (attempts (world_of (run "contact"))) = [VNone]).
Proof.
  intros environ record found by_view run. split.
  - destruct (successful_lookup
                true (fun _ => Ok 3306%Z) environ (fun _ _ => None)
                (fun _ => Ok found) (by_view "domain") initial
                "example.com" "domain" "secret"
                eq_refl eq_refl eq_refl eq_refl eq_refl eq_refl
                (Some {| Sink.host := "db.internal"; Sink.user := "whois";
                         Sink.passwd := ""; Sink.db := "lookups"; Sink.port := 3306;
                         Sink.charset := "utf8mb4" |})
                found [("WhoisRecord", VDict record)] record
                eq_refl eq_refl eq_refl eq_refl eq_refl)
      as (result & registrar & Hrun & Hdomain & _).
    + discriminate.
    + destruct (Hdomain eq_refl) as [_ ->]. unfold run. rewrite Hrun.
      split; reflexivity.
  - destruct (successful_lookup
                true (fun _ => Ok 3306%Z) environ (fun _ _ => None)
                (fun _ => Ok found) (by_view "contact") initial
                "example.com" "contact" "secret"
                eq_refl eq_refl eq_refl eq_refl eq_refl eq_refl
                (Some {| Sink.host := "db.internal"; Sink.user := "whois";
                         Sink.passwd := ""; Sink.db := "lookups"; Sink.port := 3306;
                         Sink.charset := "utf8mb4" |})
                found [("WhoisRecord", VDict record)] record
                eq_refl eq_refl eq_refl eq_refl eq_refl)
      as (result & registrar & Hrun & _ & Hcontact).
    + discriminate.
    + destruct (Hcontact eq_refl) as [_ ->]. unfold run. rewrite Hrun.
      split; reflexivity.
Defined.

Lemma non_object_record_is_internal_error_witness :
  let environ := [("WHOIS_API_KEY", "secret")] in
  let answer := {| status_code := 200; text := "";
                   json := Ok (VDict [("WhoisRecord", VStr "No match")]) |} in
  let req := {| get_json := VNone;
                args := [("domain", "example.com"); ("type", "contact")] |} in
  let run := whois_lookup true (fun _ => Ok 3306%Z) environ (fun _ _ => None)
               (fun _ => Ok answer) req initial in
  body_of run
  = Some (VDict [ ("error", VStr "Unexpected server error");
                  ("details", VStr "'str' object has no attribute 'get'") ])
  /\ status_of run = Some 500%Z.
Proof.
  intros environ answer req run. unfold run.
  rewrite (non_object_record_is_internal_error
             true (fun _ => Ok 3306%Z) environ (fun _ _ => None)
             (fun _ => Ok answer) req initial
             "example.com" "contact" "secret"
             eq_refl eq_refl eq_refl eq_refl eq_refl eq_refl
             None answer [("WhoisRecord", VStr "No match")]
             eq_refl eq_refl eq_refl eq_refl eq_refl eq_refl).
  split; reflexivity.
Defined.

Lemma timeout_reply_and_attempt_witness :
  let environ := [("WHOIS_API_KEY", "secret")] in
  let req := {| get_json := VDict [("domain", VStr "example.com")];
                args := [("type", " Domain ")] |} in
  whois_lookup true (fun _ => Ok 3306%Z) environ (fun _ _ => None)
    (fun _ => Raise Timeout) req initial
  = (Ok (VDict [("error", VStr "Upstream whois request timed out")], 504%Z),
     {| attempts := [ {| a_domain := VStr ""; a_info_type := VStr " Domain ";
                         a_http_status := 504; a_success := false;
                         a_registrar := VNone |} ];
        upstream_calls := [ [("apiKey", "secret"); ("domainName", "example.com");
                              ("outputFormat", "JSON")] ];
        driver := [] |}).
Proof.
  intros environ req.
  rewrite (timeout_reply_and_attempt
             true (fun _ => Ok 3306%Z) environ (fun _ _ => None)
             (fun _ => Raise Timeout) req initial
             "example.com" "Domain" "secret"
             eq_refl eq_refl eq_refl eq_refl eq_refl eq_refl None eq_refl eq_refl).
  reflexivity.
Defined.

